(** * SAR ADC: processing of the conversion result

    A shallow embedding of [main.c]: the command loop of [main], the
    interrupt handler [handle_SAR_ADC_IRQ] and [configure_SAR_ADC].

    C integers are [Z] with the conversions written out.  The globals and the
    channel configuration structure form the [machine]; every call into the
    SAR2/UART/NVIC drivers and every [printf] is appended to a trace, stamped
    with the active configuration ([g_outputFormat], [g_averageCount]) and
    the channel configuration as they are at the moment of the call, so that
    the order of stores and calls can be read off the trace.  A run is
    start-up followed by turns of the loop and interrupts; an interrupt
    comes between two turns or inside one, before the turn's first store
    or between the two stores of lines 178 and 180.  The bring-up of the
    board and of the UART (lines 117-138), which succeeds or stops the
    program, is not modelled. *)

From Stdlib Require Import ZArith List String Ascii Bool Lia.
From Stdlib Require DecimalString HexadecimalString.
From Stdlib Require Floats.
Import ListNotations.
Local Open Scope Z_scope.

(** ** C integer conversions *)

Module CInt.

Definition uint8 (z : Z) : Z := z mod 2 ^ 8.
Definition uint16 (z : Z) : Z := z mod 2 ^ 16.
Definition uint32 (z : Z) : Z := z mod 2 ^ 32.

(** Conversion to [int32_t], two's complement. *)
Definition int32 (z : Z) : Z := (z + 2 ^ 31) mod 2 ^ 32 - 2 ^ 31.

(** Unsigned 32-bit division; [None] stands for the division by zero. *)
Definition udiv32 (a b : Z) : option Z :=
  if b =? 0 then None else Some (a / b).

End CInt.
Import CInt.

(** ** C double-precision arithmetic *)

Module CDouble.
Import Floats.

(** [double] is IEEE 754 binary64, rounding to nearest. *)
Definition double : Set := float.

(** Conversion of an [int32_t] to [double]; exact, as every such integer
    has fewer than 53 bits. *)
Definition double_of_int32 (z : Z) : double :=
  if 0 <=? z then PrimFloat.of_uint63 (Uint63.of_Z z)
  else PrimFloat.opp (PrimFloat.of_uint63 (Uint63.of_Z (- z))).

(** The quotient of two [double]s. *)
Definition double_div (x y : double) : double := PrimFloat.div x y.

(** Conversion of a [double] to [uint8_t]: the fractional part is
    discarded; [None] stands for the conversions C leaves undefined (the
    truncated value is not one of 0 ... 255, or there is none). *)
Definition uint8_of_double (x : double) : option Z :=
  match Prim2SF x with
  | S754_zero _ => Some 0
  | S754_finite negative mantissa exponent =>
      let magnitude :=
        if 0 <=? exponent then Z.shiftl (Z.pos mantissa) exponent
        else Z.shiftr (Z.pos mantissa) (- exponent) in
      let value := if negative then - magnitude else magnitude in
      if (0 <=? value) && (value <=? 255) then Some value else None
  | S754_infinity _ => None
  | S754_nan => None
  end.

(** Modelled from the spec: the C library's [log] of [<math.h>] is not part
    of the repository.  The specification reads line 272 as the logarithm
    to base two of the count; [log] is the natural logarithm, and its
    values at the nine counts are taken correctly rounded: [ln_of_power k]
    is the binary64 number nearest to [k * ln 2], and [log 1] is zero. *)
Definition ln_of_power (k : Z) : double :=
  match k with
  | 0 => 0%float
  | 1 => 0x1.62e42fefa39efp-1%float
  | 2 => 0x1.62e42fefa39efp+0%float
  | 3 => 0x1.0a2b23f3bab73p+1%float
  | 4 => 0x1.62e42fefa39efp+1%float
  | 5 => 0x1.bb9d3beb8c86bp+1%float
  | 6 => 0x1.0a2b23f3bab73p+2%float
  | 7 => 0x1.3687a9f1af2b1p+2%float
  | 8 => 0x1.62e42fefa39efp+2%float
  | _ => nan
  end.

(** Modelled from the spec: a C library whose [log] returns these values at
    the counts 1, 2, 4, ..., 256. *)
Definition rounds_correctly (log : double -> double) : Prop :=
  forall k : Z, 0 <= k <= 8 -> log (double_of_int32 (2 ^ k)) = ln_of_power k.


(** A [log] for examples: the values above at the nine counts, and no
    number elsewhere. *)
Definition log_at_counts (x : double) : double :=
  if PrimFloat.eqb x 1 then ln_of_power 0
  else if PrimFloat.eqb x 2 then ln_of_power 1
  else if PrimFloat.eqb x 4 then ln_of_power 2
  else if PrimFloat.eqb x 8 then ln_of_power 3
  else if PrimFloat.eqb x 16 then ln_of_power 4
  else if PrimFloat.eqb x 32 then ln_of_power 5
  else if PrimFloat.eqb x 64 then ln_of_power 6
  else if PrimFloat.eqb x 128 then ln_of_power 7
  else if PrimFloat.eqb x 256 then ln_of_power 8
  else nan.


End CDouble.
Import CDouble.

(** ** The enumeration and the macros *)

(** [enum OutputFmt], as the integers the C compiler assigns. *)
Definition UNSIGNED_RIGHT_ALIGNED : Z := 0.
Definition SIGNED_RIGHT_ALIGNED : Z := 1.
Definition LEFT_ALIGNED : Z := 2.
Definition FORMAT_NUM : Z := 3.

Definition AVERAGE_COUNT_MIN : Z := 1.
Definition AVERAGE_COUNT_MAX : Z := 256.
Definition BAND_GAP_MV : Z := 900.

(** The three named variants, and their values in [enum OutputFmt]. *)
Inductive OutputFmt : Type :=
| UnsignedRightAligned
| SignedRightAligned
| LeftAligned.

Definition fmt_code (f : OutputFmt) : Z :=
  match f with
  | UnsignedRightAligned => UNSIGNED_RIGHT_ALIGNED
  | SignedRightAligned => SIGNED_RIGHT_ALIGNED
  | LeftAligned => LEFT_ALIGNED
  end.

(** The successor in the declaration order, the last followed by the first. *)
Definition fmt_next (f : OutputFmt) : OutputFmt :=
  match f with
  | UnsignedRightAligned => SignedRightAligned
  | SignedRightAligned => LeftAligned
  | LeftAligned => UnsignedRightAligned
  end.

(** ** Text *)

Definition CR : string := String (ascii_of_nat 13) EmptyString.
Definition LF : string := String (ascii_of_nat 10) EmptyString.
Definition CRLF : string := (CR ++ LF)%string.
Definition ESC : string := String (ascii_of_nat 27) EmptyString.

(** The texts [main] prints before the first configuration (lines
    141-152). *)
Definition banner : list string :=
  [ ESC ++ "[2J" ++ ESC ++ "[;H";
    "****************** Code Example: SAR ADC Various Processing of Conversion Result ******************"
    ++ CRLF;
    "Press 'a' key to decrease the average count:" ++ CRLF
    ++ "    [256 -> 128 -> 64 -> 32 -> 16 -> 8 -> 4 -> 2 -> 1]" ++ CRLF
    ++ "Press 'd' key to increase the average count:" ++ CRLF
    ++ "    [1 -> 2 -> 4 -> 8 -> 16 -> 32 -> 64 -> 128 -> 256]" ++ CRLF
    ++ "Press 's' key to change the output format:" ++ CRLF
    ++ "    [(Unsigned/Right Aligned) -> (Signed/Right Aligned) -> (Left Aligned) -> (Unsigned/Right Aligned)...]"
    ++ CRLF ++ LF;
    ESC ++ "[?25l" ]%string.

(** [OUTPUT_FORMAT_STR] *)
Definition OUTPUT_FORMAT_STR : list string :=
  [ "Unsigned/Right Aligned";
    "Signed/Right Aligned  ";
    "Left Aligned          " ]%string.

(** Array read; [None] outside the array. *)
Definition index {A : Type} (l : list A) (i : Z) : option A :=
  if i <? 0 then None else nth_error l (Z.to_nat i).

(** [printf] conversions: [%d] and [%u] print decimal digits. *)
Definition fmt_d (z : Z) : string :=
  DecimalString.NilZero.string_of_int (Z.to_int z).
Definition fmt_u (z : Z) : string :=
  DecimalString.NilZero.string_of_uint (N.to_uint (Z.to_N z)).

(** What [%x] would print: hexadecimal digits (no current call uses it). *)
Definition fmt_x (z : Z) : string :=
  HexadecimalString.NilZero.string_of_uint (N.to_hex_uint (Z.to_N z)).

(** ** Arithmetic of the handler *)

(** Lines 216-238: [resultAN0] computed from [resultAN0_raw], both
    [uint16_t], under the active format. *)
Definition resultAN0_of (outputFormat resultAN0_raw : Z) : Z :=
  if outputFormat =? SIGNED_RIGHT_ALIGNED then
    let resultAN0 := uint16 (Z.land resultAN0_raw 0xFFF) in
    if negb (Z.land resultAN0 0x800 =? 0)
    then uint16 (resultAN0 - 0x800)
    else uint16 (resultAN0 + 0x800)
  else if outputFormat =? LEFT_ALIGNED then
    uint16 (Z.land (Z.shiftr resultAN0_raw 4) 0xFFF)
  else resultAN0_raw.

(** Line 243:
    [((uint32_t)resultAN0 * BAND_GAP_MV) / (uint32_t)resultVBG]. *)
Definition millivolts (resultAN0 resultVBG : Z) : option Z :=
  udiv32 (uint32 (uint32 resultAN0 * BAND_GAP_MV)) (uint32 resultVBG).

(** ** The machine *)

Inductive channel : Type :=
| CE_SAR2_AN0_IDX
| CE_SAR2_VBG_IDX.

Inductive cy_en_sar2_result_alignment_t : Type :=
| CY_SAR2_RESULT_ALIGNMENT_RIGHT
| CY_SAR2_RESULT_ALIGNMENT_LEFT.

Inductive cy_en_sar2_sign_extention_t : Type :=
| CY_SAR2_SIGN_EXTENTION_UNSIGNED
| CY_SAR2_SIGN_EXTENTION_SIGNED.

Inductive cy_en_sar2_ref_buf_mode_t : Type :=
| CY_SAR2_REF_BUF_MODE_ON.

(** The fields of [CE_SAR2_AN0_config] that [main.c] writes. *)
Record cy_stc_sar2_channel_config_t : Type := {
  rightShift : Z;
  averageCount : Z;
  resultAlignment : cy_en_sar2_result_alignment_t;
  signExtention : cy_en_sar2_sign_extention_t
}.

Definition set_rightShift (v : Z) (c : cy_stc_sar2_channel_config_t) :=
  {| rightShift := v; averageCount := averageCount c;
     resultAlignment := resultAlignment c; signExtention := signExtention c |}.
Definition set_averageCount (v : Z) (c : cy_stc_sar2_channel_config_t) :=
  {| rightShift := rightShift c; averageCount := v;
     resultAlignment := resultAlignment c; signExtention := signExtention c |}.
Definition set_resultAlignment (v : cy_en_sar2_result_alignment_t)
  (c : cy_stc_sar2_channel_config_t) :=
  {| rightShift := rightShift c; averageCount := averageCount c;
     resultAlignment := v; signExtention := signExtention c |}.
Definition set_signExtention (v : cy_en_sar2_sign_extention_t)
  (c : cy_stc_sar2_channel_config_t) :=
  {| rightShift := rightShift c; averageCount := averageCount c;
     resultAlignment := resultAlignment c; signExtention := v |}.

(** Calls that leave [main.c].  A call that returns a value carries the
    value returned; [Cy_SAR2_Init] reads the channel configuration through
    the pointer it is given and carries the fields as they are then. *)
Inductive driver_call : Type :=
| Cy_SCB_UART_Get (ret : Z)
| Cy_SAR2_Channel_GetInterruptStatus (ch : channel) (ret : Z)
| Cy_SAR2_Channel_ClearInterrupt (ch : channel) (intr : Z)
| Cy_SAR2_Channel_GetResult (ch : channel) (ret : Z)
| printf (text : string)
| Cy_SAR2_DeInit
| Cy_SAR2_Init (AN0_config : cy_stc_sar2_channel_config_t)
| Cy_SAR2_SetReferenceBufferMode (mode : cy_en_sar2_ref_buf_mode_t)
| Cy_SAR2_Channel_SetInterruptMask (ch : channel) (mask : Z)
| Cy_SysInt_Init
| NVIC_SetPriority (priority : Z)
| NVIC_EnableIRQ
| Cy_SAR2_Channel_SoftwareTrigger (ch : channel).

(** A call, with [(g_outputFormat, g_averageCount)] and
    [CE_SAR2_AN0_config] as they are when it is made. *)
Record event : Type := {
  call_of : driver_call;
  active_at : Z * Z;
  config_at : cy_stc_sar2_channel_config_t
}.

Record machine : Type := {
  g_nextOutputFormat : Z;
  g_nextAverageCount : Z;
  g_outputFormat : Z;
  g_averageCount : Z;
  CE_SAR2_AN0_config : cy_stc_sar2_channel_config_t;
  trace : list event
}.

(** The globals as initialised (lines 78-81), the configuration structure as
    the generated code leaves it, and nothing called yet. *)
Definition power_on (cfg0 : cy_stc_sar2_channel_config_t) : machine :=
  {| g_nextOutputFormat := UNSIGNED_RIGHT_ALIGNED;
     g_nextAverageCount := 1;
     g_outputFormat := -1;
     g_averageCount := -1;
     CE_SAR2_AN0_config := cfg0;
     trace := [] |}.

(** ** State and failure *)

(** A command runs on a machine and returns a value and the machine it
    leaves, or [None] where C gives the step no meaning (a division by zero,
    a read outside an array). *)
Definition M (A : Type) : Type := machine -> option (A * machine).

Definition ret {A : Type} (a : A) : M A := fun m => Some (a, m).

Definition bind {A B : Type} (c : M A) (k : A -> M B) : M B :=
  fun m => match c m with
           | Some (a, m') => k a m'
           | None => None
           end.

Definition lift {A : Type} (o : option A) : M A :=
  fun m => match o with
           | Some a => Some (a, m)
           | None => None
           end.

Definition gets {A : Type} (f : machine -> A) : M A := fun m => Some (f m, m).

Definition modify (f : machine -> machine) : M unit := fun m => Some (tt, f m).

Declare Scope cmd_scope.
Delimit Scope cmd_scope with cmd.
Notation "x <- c ;; k" := (bind c (fun x => k))
  (at level 61, c at next level, right associativity) : cmd_scope.
Notation "c ;; k" := (bind c (fun _ => k))
  (at level 61, right associativity) : cmd_scope.
Local Open Scope cmd_scope.

Definition store_g_nextOutputFormat (v : Z) : M unit :=
  modify (fun m =>
    {| g_nextOutputFormat := v; g_nextAverageCount := g_nextAverageCount m;
       g_outputFormat := g_outputFormat m; g_averageCount := g_averageCount m;
       CE_SAR2_AN0_config := CE_SAR2_AN0_config m; trace := trace m |}).

Definition store_g_nextAverageCount (v : Z) : M unit :=
  modify (fun m =>
    {| g_nextOutputFormat := g_nextOutputFormat m; g_nextAverageCount := v;
       g_outputFormat := g_outputFormat m; g_averageCount := g_averageCount m;
       CE_SAR2_AN0_config := CE_SAR2_AN0_config m; trace := trace m |}).

Definition store_g_outputFormat (v : Z) : M unit :=
  modify (fun m =>
    {| g_nextOutputFormat := g_nextOutputFormat m;
       g_nextAverageCount := g_nextAverageCount m;
       g_outputFormat := v; g_averageCount := g_averageCount m;
       CE_SAR2_AN0_config := CE_SAR2_AN0_config m; trace := trace m |}).

Definition store_g_averageCount (v : Z) : M unit :=
  modify (fun m =>
    {| g_nextOutputFormat := g_nextOutputFormat m;
       g_nextAverageCount := g_nextAverageCount m;
       g_outputFormat := g_outputFormat m; g_averageCount := v;
       CE_SAR2_AN0_config := CE_SAR2_AN0_config m; trace := trace m |}).

Definition store_AN0_config
  (f : cy_stc_sar2_channel_config_t -> cy_stc_sar2_channel_config_t) : M unit :=
  modify (fun m =>
    {| g_nextOutputFormat := g_nextOutputFormat m;
       g_nextAverageCount := g_nextAverageCount m;
       g_outputFormat := g_outputFormat m; g_averageCount := g_averageCount m;
       CE_SAR2_AN0_config := f (CE_SAR2_AN0_config m); trace := trace m |}).

(** The call [c] as made on the machine [m]. *)
Definition stamp (m : machine) (c : driver_call) : event :=
  {| call_of := c;
     active_at := (g_outputFormat m, g_averageCount m);
     config_at := CE_SAR2_AN0_config m |}.

(** The machine after the calls [cs], none of which changes a global or
    the channel configuration. *)
Definition logged (cs : list driver_call) (m : machine) : machine :=
  {| g_nextOutputFormat := g_nextOutputFormat m;
     g_nextAverageCount := g_nextAverageCount m;
     g_outputFormat := g_outputFormat m; g_averageCount := g_averageCount m;
     CE_SAR2_AN0_config := CE_SAR2_AN0_config m;
     trace := trace m ++ map (stamp m) cs |}.

(** A call is recorded at the end of the trace. *)
Definition call (c : driver_call) : M unit := modify (logged [c]).

(** A call that returns [v]. *)
Definition call_ret (c : Z -> driver_call) (v : Z) : M Z :=
  call (c v) ;; ret v.

(** A character constant. *)
Definition chr (c : ascii) : Z := Z.of_nat (nat_of_ascii c).

(** ** The program *)

(** The right-hand side of line 272,
    [(uint8_t)(log(averageCount) / log(2))], for a C library's [log]: both
    arguments are converted to [double], the quotient is a [double]
    division, and the result is truncated to [uint8_t]. *)
Definition rightShift_of (log : double -> double) (averageCount : Z)
  : option Z :=
  uint8_of_double
    (double_div (log (double_of_int32 averageCount))
                (log (double_of_int32 2))).

(** The same as a total function, for the conversions C defines. *)
Definition rightShift_or_zero (log : double -> double) (averageCount : Z)
  : Z :=
  match rightShift_of log averageCount with
  | Some exponent => exponent
  | None => 0
  end.

Section Program.

(** [CY_SAR2_INT_GRP_DONE], a macro of the SAR2 driver's header. *)
Variable CY_SAR2_INT_GRP_DONE : Z.

(** The value of [(uint8_t)(log(averageCount) / log(2))] (line 272): a
    quotient of two double-precision results of the C library's [log],
    truncated.  The library is not part of [main.c]; the value is kept as
    the platform computes it, and [rightShift_of] spells the expression
    out for a given [log]. *)
Variable log_quotient : Z -> Z.

(** Lines 264-310. *)
Definition configure_SAR_ADC (outputFormat averageCount : Z) : M unit :=
  active_format <- gets g_outputFormat ;;
  active_count <- gets g_averageCount ;;
  (if negb (active_format =? outputFormat) || negb (active_count =? averageCount)
   then
     call Cy_SAR2_DeInit ;;
     store_AN0_config (set_rightShift (log_quotient averageCount)) ;;
     store_AN0_config (set_averageCount (uint16 averageCount)) ;;
     (if outputFormat =? UNSIGNED_RIGHT_ALIGNED then
        store_AN0_config (set_resultAlignment CY_SAR2_RESULT_ALIGNMENT_RIGHT) ;;
        store_AN0_config (set_signExtention CY_SAR2_SIGN_EXTENTION_UNSIGNED)
      else if outputFormat =? SIGNED_RIGHT_ALIGNED then
        store_AN0_config (set_resultAlignment CY_SAR2_RESULT_ALIGNMENT_RIGHT) ;;
        store_AN0_config (set_signExtention CY_SAR2_SIGN_EXTENTION_SIGNED)
      else
        store_AN0_config (set_resultAlignment CY_SAR2_RESULT_ALIGNMENT_LEFT) ;;
        store_AN0_config (set_signExtention CY_SAR2_SIGN_EXTENTION_UNSIGNED)) ;;
     config <- gets CE_SAR2_AN0_config ;;
     call (Cy_SAR2_Init config) ;;
     call (Cy_SAR2_SetReferenceBufferMode CY_SAR2_REF_BUF_MODE_ON) ;;
     call (Cy_SAR2_Channel_SetInterruptMask CE_SAR2_AN0_IDX CY_SAR2_INT_GRP_DONE) ;;
     call Cy_SysInt_Init ;;
     call (NVIC_SetPriority 2) ;;
     call NVIC_EnableIRQ
   else ret tt) ;;
  store_g_outputFormat outputFormat ;;
  store_g_averageCount averageCount ;;
  call (Cy_SAR2_Channel_SoftwareTrigger CE_SAR2_VBG_IDX).

(** Lines 202-248.  The arguments are what the driver returns to the three
    reads: the interrupt status of the AN0 channel and the results of the
    VBG and AN0 channels. *)
Definition handle_SAR_ADC_IRQ (status resVBG resAN0 : Z) : M unit :=
  intr <- call_ret (Cy_SAR2_Channel_GetInterruptStatus CE_SAR2_AN0_IDX) status ;;
  call (Cy_SAR2_Channel_ClearInterrupt CE_SAR2_AN0_IDX intr) ;;
  if intr =? CY_SAR2_INT_GRP_DONE then
    vbg <- call_ret (Cy_SAR2_Channel_GetResult CE_SAR2_VBG_IDX) resVBG ;;
    let resultVBG := uint16 vbg in
    an0 <- call_ret (Cy_SAR2_Channel_GetResult CE_SAR2_AN0_IDX) resAN0 ;;
    let resultAN0_raw := uint16 an0 in
    active_format <- gets g_outputFormat ;;
    let resultAN0 := resultAN0_of active_format resultAN0_raw in
    label <- lift (index OUTPUT_FORMAT_STR active_format) ;;
    active_count <- gets g_averageCount ;;
    call (printf ("Output format: " ++ label ++ CRLF
                  ++ "Average count: " ++ fmt_d active_count ++ CRLF)) ;;
    call (printf ("Conversion result raw value: 0x"
                  ++ fmt_u resultAN0_raw ++ CRLF)) ;;
    mV <- lift (millivolts resultAN0 resultVBG) ;;
    call (printf ("Potentiometer voltage: " ++ fmt_u mV ++ "mV" ++ CRLF)) ;;
    call (printf (ESC ++ "[4F")) ;;
    next_format <- gets g_nextOutputFormat ;;
    next_count <- gets g_nextAverageCount ;;
    configure_SAR_ADC next_format next_count
  else ret tt.

(** Lines 159-182: one turn of the [for (;;)] loop of [main]; [rx] is what
    [Cy_SCB_UART_Get] returns. *)
Definition main_loop_body (rx : Z) : M unit :=
  got <- call_ret Cy_SCB_UART_Get rx ;;
  let uartReadValue := uint8 got in
  if (uartReadValue =? chr "a") || (uartReadValue =? chr "d") then
    count <- gets g_nextAverageCount ;;
    if (uartReadValue =? chr "a") && negb (uint32 count =? AVERAGE_COUNT_MIN)
    then store_g_nextAverageCount (Z.shiftr count 1)
    else if (uartReadValue =? chr "d") && negb (uint32 count =? AVERAGE_COUNT_MAX)
    then store_g_nextAverageCount (int32 (Z.shiftl count 1))
    else ret tt
  else if uartReadValue =? chr "s" then
    format <- gets g_nextOutputFormat ;;
    store_g_nextOutputFormat (int32 (format + 1)) ;;
    if int32 (format + 1) >? LEFT_ALIGNED
    then store_g_nextOutputFormat UNSIGNED_RIGHT_ALIGNED
    else ret tt
  else ret tt.

(** Lines 141-155: the banner, then the first configuration, with the
    globals' initial values. *)
Fixpoint print_all (texts : list string) : M unit :=
  match texts with
  | [] => ret tt
  | text :: rest => call (printf text) ;; print_all rest
  end.

Definition main_startup : M unit :=
  print_all banner ;;
  next_format <- gets g_nextOutputFormat ;;
  next_count <- gets g_nextAverageCount ;;
  configure_SAR_ADC next_format next_count.

(** ** Interrupts inside a turn *)

(** The SAR2 interrupt is enabled from line 301 and the conversions are
    started at line 309, so from the first turn of the loop on the handler
    can run between any two steps of [main].  It reads both pending globals
    and writes neither; a turn writes a pending global once (lines 168 and
    172) or twice (lines 178 and 180).  Where the handler comes in
    therefore matters at two places of a turn: before its first store, and
    between the store of line 178 and the reset of line 180.  The turn is
    split there.  The handler runs to its end before the loop resumes. *)

(** Lines 163-178, up to and including the store of [++g_nextOutputFormat];
    the value is that of the increment expression, when the turn evaluates
    it. *)
Definition main_loop_store (uartReadValue : Z) : M (option Z) :=
  if (uartReadValue =? chr "a") || (uartReadValue =? chr "d") then
    count <- gets g_nextAverageCount ;;
    (if (uartReadValue =? chr "a") && negb (uint32 count =? AVERAGE_COUNT_MIN)
     then store_g_nextAverageCount (Z.shiftr count 1)
     else if (uartReadValue =? chr "d")
             && negb (uint32 count =? AVERAGE_COUNT_MAX)
     then store_g_nextAverageCount (int32 (Z.shiftl count 1))
     else ret tt) ;;
    ret None
  else if uartReadValue =? chr "s" then
    format <- gets g_nextOutputFormat ;;
    store_g_nextOutputFormat (int32 (format + 1)) ;;
    ret (Some (int32 (format + 1)))
  else ret None.

(** Lines 178-181: the comparison of the incremented value with
    [LEFT_ALIGNED], and the reset. *)
Definition main_loop_wrap (incremented : option Z) : M unit :=
  match incremented with
  | Some format =>
      if format >? LEFT_ALIGNED
      then store_g_nextOutputFormat UNSIGNED_RIGHT_ALIGNED
      else ret tt
  | None => ret tt
  end.

(** One interrupt of the SAR2 line: what the driver returns to the three
    reads of the handler. *)
Inductive interrupt : Type :=
| Interrupt (status resVBG resAN0 : Z).

Definition handle (i : interrupt) : M unit :=
  match i with
  | Interrupt status resVBG resAN0 => handle_SAR_ADC_IRQ status resVBG resAN0
  end.

Fixpoint handle_all (irqs : list interrupt) : M unit :=
  match irqs with
  | [] => ret tt
  | i :: rest => handle i ;; handle_all rest
  end.

(** What happens after start-up: a turn of the command loop that no
    interrupt comes into, a SAR2 interrupt between two turns, or a turn
    with interrupts inside it, the [early] ones after the read of line 162
    and before the turn's first store, the [late] ones after that store and
    before the reset of line 180. *)
Inductive occurrence : Type :=
| Poll (rx : Z)
| Irq (status resVBG resAN0 : Z)
| Preempted (rx : Z) (early late : list interrupt).

Definition occur (o : occurrence) : M unit :=
  match o with
  | Poll rx => main_loop_body rx
  | Irq status resVBG resAN0 => handle_SAR_ADC_IRQ status resVBG resAN0
  | Preempted rx early late =>
      got <- call_ret Cy_SCB_UART_Get rx ;;
      handle_all early ;;
      incremented <- main_loop_store (uint8 got) ;;
      handle_all late ;;
      main_loop_wrap incremented
  end.

Fixpoint occur_all (os : list occurrence) : M unit :=
  match os with
  | [] => ret tt
  | o :: rest => occur o ;; occur_all rest
  end.

(** [main] from line 141 on, run for the given occurrences. *)
Definition main (os : list occurrence) : M unit :=
  main_startup ;; occur_all os.

(** ** Vocabulary of the statements *)

(** The output-format table of the specification: alignment and sign
    handling of each named format. *)
Definition format_table (f : OutputFmt)
  : cy_en_sar2_result_alignment_t * cy_en_sar2_sign_extention_t :=
  match f with
  | UnsignedRightAligned =>
      (CY_SAR2_RESULT_ALIGNMENT_RIGHT, CY_SAR2_SIGN_EXTENTION_UNSIGNED)
  | SignedRightAligned =>
      (CY_SAR2_RESULT_ALIGNMENT_RIGHT, CY_SAR2_SIGN_EXTENTION_SIGNED)
  | LeftAligned =>
      (CY_SAR2_RESULT_ALIGNMENT_LEFT, CY_SAR2_SIGN_EXTENTION_UNSIGNED)
  end.

(** A power of two between 1 and 256. *)
Definition average_count_ok (n : Z) : Prop :=
  exists k : Z, 0 <= k <= 8 /\ n = 2 ^ k.

(** The texts a trace sends to the console, in order. *)
Fixpoint printed (t : list event) : list string :=
  match t with
  | [] => []
  | {| call_of := printf text |} :: rest => text :: printed rest
  | _ :: rest => printed rest
  end.

(** The machine with another active configuration, all else the same. *)
Definition adopt (outputFormat averageCount : Z) (m : machine) : machine :=
  {| g_nextOutputFormat := g_nextOutputFormat m;
     g_nextAverageCount := g_nextAverageCount m;
     g_outputFormat := outputFormat; g_averageCount := averageCount;
     CE_SAR2_AN0_config := CE_SAR2_AN0_config m; trace := trace m |}.

(** The machine with another channel configuration, all else the same. *)
Definition programmed (c : cy_stc_sar2_channel_config_t) (m : machine)
  : machine :=
  {| g_nextOutputFormat := g_nextOutputFormat m;
     g_nextAverageCount := g_nextAverageCount m;
     g_outputFormat := g_outputFormat m; g_averageCount := g_averageCount m;
     CE_SAR2_AN0_config := c; trace := trace m |}.

(** The transform of the specification, in its words: the signed format
    masks to twelve bits and re-centres on bit 11, the left-aligned format
    shifts right by four and masks, the unsigned format changes nothing. *)
Definition spec_transform (f : OutputFmt) (rawCode : Z) : Z :=
  match f with
  | UnsignedRightAligned => rawCode
  | SignedRightAligned =>
      let masked := Z.land rawCode 0xFFF in
      if Z.testbit masked 11 then masked - 0x800 else masked + 0x800
  | LeftAligned => Z.land (Z.shiftr rawCode 4) 0xFFF
  end.

(** The label of a named format in [OUTPUT_FORMAT_STR]. *)
Definition fmt_label (f : OutputFmt) : string :=
  match f with
  | UnsignedRightAligned => "Unsigned/Right Aligned"
  | SignedRightAligned => "Signed/Right Aligned  "
  | LeftAligned => "Left Aligned          "
  end.

(** The four texts of one rendering (lines 241-244), given the label, the
    count, the digits shown after [0x] and the voltage. *)
Definition rendering (label : string) (count : Z) (raw_digits : string)
  (mV : Z) : list string :=
  [ "Output format: " ++ label ++ CRLF
    ++ "Average count: " ++ fmt_d count ++ CRLF;
    "Conversion result raw value: 0x" ++ raw_digits ++ CRLF;
    "Potentiometer voltage: " ++ fmt_u mV ++ "mV" ++ CRLF;
    ESC ++ "[4F" ]%string.

(** The four calls every group-done interrupt starts with. *)
Definition reads (status resVBG resAN0 : Z) : list driver_call :=
  [ Cy_SAR2_Channel_GetInterruptStatus CE_SAR2_AN0_IDX status;
    Cy_SAR2_Channel_ClearInterrupt CE_SAR2_AN0_IDX status;
    Cy_SAR2_Channel_GetResult CE_SAR2_VBG_IDX resVBG;
    Cy_SAR2_Channel_GetResult CE_SAR2_AN0_IDX resAN0 ].

(** The calls of a reconfiguration between the teardown and the trigger
    (lines 292-301). *)
Definition bring_up (c : cy_stc_sar2_channel_config_t) : list driver_call :=
  [ Cy_SAR2_Init c;
    Cy_SAR2_SetReferenceBufferMode CY_SAR2_REF_BUF_MODE_ON;
    Cy_SAR2_Channel_SetInterruptMask CE_SAR2_AN0_IDX CY_SAR2_INT_GRP_DONE;
    Cy_SysInt_Init;
    NVIC_SetPriority 2;
    NVIC_EnableIRQ ].

(** The channel configuration a reconfiguration programs for a named
    format: the exponent of line 272, the count as [uint16_t], and the row
    of the table. *)
Definition new_config (f : OutputFmt) (count : Z)
  : cy_stc_sar2_channel_config_t :=
  {| rightShift := log_quotient count;
     averageCount := uint16 count;
     resultAlignment := fst (format_table f);
     signExtention := snd (format_table f) |}.

(** The machine a reconfiguration leaves: the teardown on the machine as
    found, the channel configuration [c] stored, the bring-up with [c] in
    place and the old configuration still active, the arguments made the
    active configuration, and the trigger. *)
Definition reconfigured (outputFormat count : Z)
  (c : cy_stc_sar2_channel_config_t) (m : machine) : machine :=
  logged [Cy_SAR2_Channel_SoftwareTrigger CE_SAR2_VBG_IDX]
    (adopt outputFormat count
       (logged (bring_up c)
          (programmed c
             (logged [Cy_SAR2_DeInit] m)))).

(** The machine start-up leaves from reset: the banner printed and the
    converter programmed for the defaults. *)
Definition started (cfg0 : cy_stc_sar2_channel_config_t) : machine :=
  reconfigured UNSIGNED_RIGHT_ALIGNED 1 (new_config UnsignedRightAligned 1)
    (logged (map printf banner) (power_on cfg0)).

(** The machine with other pending values, all else the same. *)
Definition pending (outputFormat averageCount : Z) (m : machine) : machine :=
  {| g_nextOutputFormat := outputFormat; g_nextAverageCount := averageCount;
     g_outputFormat := g_outputFormat m; g_averageCount := g_averageCount m;
     CE_SAR2_AN0_config := CE_SAR2_AN0_config m; trace := trace m |}.

(** What one turn of the loop leaves in [g_nextAverageCount] and in
    [g_nextOutputFormat] for the byte [c] (lines 163-182, the expressions
    alone). *)
Definition count_after (c count : Z) : Z :=
  if (c =? chr "a") && negb (uint32 count =? AVERAGE_COUNT_MIN)
  then Z.shiftr count 1
  else if (c =? chr "d") && negb (uint32 count =? AVERAGE_COUNT_MAX)
  then int32 (Z.shiftl count 1)
  else count.

Definition format_after (c format : Z) : Z :=
  if (c =? chr "a") || (c =? chr "d") then format
  else if c =? chr "s" then
    if int32 (format + 1) >? LEFT_ALIGNED
    then UNSIGNED_RIGHT_ALIGNED
    else int32 (format + 1)
  else format.

(** Halving and doubling as the specification words them. *)
Definition halved (count : Z) : Z := if count =? 1 then count else count / 2.
Definition doubled (count : Z) : Z := if count =? 256 then count else 2 * count.

(** The same for any value of the format argument: lines 272-289 as they
    are, the third branch taking every value but the first two. *)
Definition config_for (outputFormat count : Z)
  : cy_stc_sar2_channel_config_t :=
  {| rightShift := log_quotient count;
     averageCount := uint16 count;
     resultAlignment :=
       if outputFormat =? UNSIGNED_RIGHT_ALIGNED
       then CY_SAR2_RESULT_ALIGNMENT_RIGHT
       else if outputFormat =? SIGNED_RIGHT_ALIGNED
       then CY_SAR2_RESULT_ALIGNMENT_RIGHT
       else CY_SAR2_RESULT_ALIGNMENT_LEFT;
     signExtention :=
       if outputFormat =? UNSIGNED_RIGHT_ALIGNED
       then CY_SAR2_SIGN_EXTENTION_UNSIGNED
       else if outputFormat =? SIGNED_RIGHT_ALIGNED
       then CY_SAR2_SIGN_EXTENTION_SIGNED
       else CY_SAR2_SIGN_EXTENTION_UNSIGNED |}.

(** What holds of the globals between two occurrences as long as no
    group-done interrupt comes between an increment of the pending format
    and its reset: both formats are named ones and both counts are powers
    of two in range. *)
Definition settled (m : machine) : Prop :=
  (exists f : OutputFmt, g_outputFormat m = fmt_code f)
  /\ (exists f : OutputFmt, g_nextOutputFormat m = fmt_code f)
  /\ average_count_ok (g_averageCount m)
  /\ average_count_ok (g_nextAverageCount m).

(** An interrupt that is not a group-done one with a reference code of
    zero. *)
Definition with_reference (i : interrupt) : bool :=
  match i with
  | Interrupt status resVBG _ =>
      negb (status =? CY_SAR2_INT_GRP_DONE) || negb (uint16 resVBG =? 0)
  end.

(** An occurrence without a group-done interrupt with a reference code of
    zero. *)
Definition reference_present (o : occurrence) : bool :=
  match o with
  | Poll _ => true
  | Irq status resVBG _ =>
      negb (status =? CY_SAR2_INT_GRP_DONE) || negb (uint16 resVBG =? 0)
  | Preempted _ early late =>
      forallb with_reference early && forallb with_reference late
  end.

(** A group-done interrupt. *)
Definition is_group_done (i : interrupt) : bool :=
  match i with
  | Interrupt status _ _ => status =? CY_SAR2_INT_GRP_DONE
  end.

(** An occurrence in which no group-done interrupt comes after the store of
    line 178 and before the end of the statement (the reset of line 180,
    when the turn takes it). *)
Definition unbroken (o : occurrence) : bool :=
  match o with
  | Poll _ => true
  | Irq _ _ _ => true
  | Preempted rx _ late =>
      negb (uint8 rx =? chr "s")
      || forallb (fun i => negb (is_group_done i)) late
  end.

(** A machine to run examples on: the pending values at their defaults, a
    given active configuration, and an empty trace. *)
Definition sample_config : cy_stc_sar2_channel_config_t :=
  {| rightShift := 0; averageCount := 1;
     resultAlignment := CY_SAR2_RESULT_ALIGNMENT_RIGHT;
     signExtention := CY_SAR2_SIGN_EXTENTION_UNSIGNED |}.

Definition sample_machine (outputFormat averageCount : Z) : machine :=
  adopt outputFormat averageCount (power_on sample_config).

(** ** Vocabulary of the further properties *)

(** The calls of a trace, without the stamps. *)
Definition calls_of (t : list event) : list driver_call := map call_of t.

(** How many calls of a trace satisfy [p]. *)
Definition count_calls (p : driver_call -> bool) (t : list event) : nat :=
  List.length (filter (fun e => p (call_of e)) t).

Definition is_trigger_of (ch : channel) (c : driver_call) : bool :=
  match c, ch with
  | Cy_SAR2_Channel_SoftwareTrigger CE_SAR2_VBG_IDX, CE_SAR2_VBG_IDX => true
  | Cy_SAR2_Channel_SoftwareTrigger CE_SAR2_AN0_IDX, CE_SAR2_AN0_IDX => true
  | _, _ => false
  end.

Definition is_result_read (c : driver_call) : bool :=
  match c with
  | Cy_SAR2_Channel_GetResult _ _ => true
  | _ => false
  end.

Definition is_teardown (c : driver_call) : bool :=
  match c with
  | Cy_SAR2_DeInit => true
  | _ => false
  end.

Definition is_init (c : driver_call) : bool :=
  match c with
  | Cy_SAR2_Init _ => true
  | _ => false
  end.

Definition is_printf (c : driver_call) : bool :=
  match c with
  | printf _ => true
  | _ => false
  end.

Definition is_status_read (c : driver_call) : bool :=
  match c with
  | Cy_SAR2_Channel_GetInterruptStatus _ _ => true
  | _ => false
  end.

Definition is_acknowledge (c : driver_call) : bool :=
  match c with
  | Cy_SAR2_Channel_ClearInterrupt _ _ => true
  | _ => false
  end.

(** The interrupts of an occurrence, in the order they are taken. *)
Definition interrupts_of (o : occurrence) : list interrupt :=
  match o with
  | Poll _ => []
  | Irq status resVBG resAN0 => [Interrupt status resVBG resAN0]
  | Preempted _ early late => early ++ late
  end.

(** The interrupts among some occurrences. *)
Definition interrupts (os : list occurrence) : nat :=
  List.length (flat_map interrupts_of os).

(** The group-done interrupts among some occurrences. *)
Definition group_dones (os : list occurrence) : nat :=
  List.length (filter is_group_done (flat_map interrupts_of os)).

(** The named format of an enumerator. *)
Definition named (z : Z) : OutputFmt :=
  if z =? SIGNED_RIGHT_ALIGNED then SignedRightAligned
  else if z =? LEFT_ALIGNED then LeftAligned
  else UnsignedRightAligned.

(** The machine of a group-done interrupt after its reads and its
    rendering, [f] being the active format and the reference code not
    zero. *)
Definition sampled (f : OutputFmt) (resVBG resAN0 : Z) (m : machine)
  : machine :=
  logged
    (reads CY_SAR2_INT_GRP_DONE resVBG resAN0 ++
     map printf
       (rendering (fmt_label f) (g_averageCount m) (fmt_u (uint16 resAN0))
          (spec_transform f (uint16 resAN0) * 900 / uint16 resVBG)))
    m.

(** The machine such an interrupt leaves: reconfigured for the pending
    values when they differ from the active ones, triggered alone when they
    do not. *)
Definition after_group_done (f : OutputFmt) (resVBG resAN0 : Z) (m : machine)
  : machine :=
  if negb (g_outputFormat m =? g_nextOutputFormat m)
     || negb (g_averageCount m =? g_nextAverageCount m)
  then reconfigured (g_nextOutputFormat m) (g_nextAverageCount m)
         (config_for (g_nextOutputFormat m) (g_nextAverageCount m))
         (sampled f resVBG resAN0 m)
  else logged [Cy_SAR2_Channel_SoftwareTrigger CE_SAR2_VBG_IDX]
         (sampled f resVBG resAN0 m).

(** The two calls every interrupt starts with. *)
Definition acknowledgement (status : Z) : list driver_call :=
  [ Cy_SAR2_Channel_GetInterruptStatus CE_SAR2_AN0_IDX status;
    Cy_SAR2_Channel_ClearInterrupt CE_SAR2_AN0_IDX status ].

(** The machine an interrupt leaves when the handler returns. *)
Definition after (i : interrupt) (m : machine) : machine :=
  match i with
  | Interrupt status resVBG resAN0 =>
      if status =? CY_SAR2_INT_GRP_DONE
      then after_group_done (named (g_outputFormat m)) resVBG resAN0 m
      else logged (acknowledgement status) m
  end.

(** The calls the handler makes when it returns. *)
Definition new_calls (i : interrupt) (m : machine) : list driver_call :=
  match i with
  | Interrupt status resVBG resAN0 =>
      if status =? CY_SAR2_INT_GRP_DONE then
        reads CY_SAR2_INT_GRP_DONE resVBG resAN0 ++
        map printf
          (rendering (fmt_label (named (g_outputFormat m))) (g_averageCount m)
             (fmt_u (uint16 resAN0))
             (spec_transform (named (g_outputFormat m)) (uint16 resAN0) * 900
              / uint16 resVBG)) ++
        (if negb (g_outputFormat m =? g_nextOutputFormat m)
            || negb (g_averageCount m =? g_nextAverageCount m)
         then Cy_SAR2_DeInit
              :: bring_up (config_for (g_nextOutputFormat m)
                             (g_nextAverageCount m))
         else []) ++
        [Cy_SAR2_Channel_SoftwareTrigger CE_SAR2_VBG_IDX]
      else acknowledgement status
  end.

(** The machine some interrupts in a row leave when the handler returns
    from each. *)
Fixpoint after_all (irqs : list interrupt) (m : machine) : machine :=
  match irqs with
  | [] => m
  | i :: rest => after_all rest (after i m)
  end.

(** The value of the increment expression of line 178 in a turn for the
    byte [c], and the machine the turn's first part leaves (lines 163-178):
    the count halved or doubled, or the format incremented and not yet
    reset. *)
Definition incremented (c : Z) (m : machine) : option Z :=
  if (c =? chr "a") || (c =? chr "d") then None
  else if c =? chr "s" then Some (int32 (g_nextOutputFormat m + 1))
  else None.

Definition stored (c : Z) (m : machine) : machine :=
  pending
    (if (c =? chr "a") || (c =? chr "d") then g_nextOutputFormat m
     else if c =? chr "s" then int32 (g_nextOutputFormat m + 1)
     else g_nextOutputFormat m)
    (count_after c (g_nextAverageCount m)) m.

(** The machine the turn's second part leaves (lines 178-181). *)
Definition wrapped (incremented : option Z) (m : machine) : machine :=
  match incremented with
  | Some format =>
      if format >? LEFT_ALIGNED
      then pending UNSIGNED_RIGHT_ALIGNED (g_nextAverageCount m) m
      else m
  | None => m
  end.

(** The named format whose row lines 275-289 program for a value of the
    format argument: the last branch takes every value but the first
    two. *)
Definition programmed_as (outputFormat : Z) : OutputFmt :=
  if outputFormat =? UNSIGNED_RIGHT_ALIGNED then UnsignedRightAligned
  else if outputFormat =? SIGNED_RIGHT_ALIGNED then SignedRightAligned
  else LeftAligned.

(** What holds of the globals between two occurrences in every run: the
    pending format is a named one, the active one is an enumerator of
    [OutputFmt] ([FORMAT_NUM] included), both counts are powers of two in
    range. *)
Definition steady (m : machine) : Prop :=
  (exists f : OutputFmt, g_nextOutputFormat m = fmt_code f)
  /\ 0 <= g_outputFormat m <= FORMAT_NUM
  /\ average_count_ok (g_averageCount m)
  /\ average_count_ok (g_nextAverageCount m).

(** The same inside a turn, where the pending format can be [FORMAT_NUM]
    too. *)
Definition loose (m : machine) : Prop :=
  0 <= g_nextOutputFormat m <= FORMAT_NUM
  /\ 0 <= g_outputFormat m <= FORMAT_NUM
  /\ average_count_ok (g_averageCount m)
  /\ average_count_ok (g_nextAverageCount m).

(** The channel configuration is the one of the active configuration. *)
Definition in_step (m : machine) : Prop :=
  CE_SAR2_AN0_config m = config_for (g_outputFormat m) (g_averageCount m).

(** An initialisation reads the channel configuration as it is in memory,
    and that is the configuration of a named format and of a count in
    range. *)
Definition init_ok (e : event) : Prop :=
  match call_of e with
  | Cy_SAR2_Init c =>
      config_at e = c
      /\ exists (f : OutputFmt) (k : Z), 0 <= k <= 8 /\ c = new_config f (2 ^ k)
  | _ => True
  end.

(** * Properties *)

(** ** Integer facts *)

Lemma uint16_small (z : Z) : 0 <= z < 2 ^ 16 -> uint16 z = z.
Proof. intros H. unfold uint16. apply Z.mod_small. exact H. Qed.

Lemma uint32_small (z : Z) : 0 <= z < 2 ^ 32 -> uint32 z = z.
Proof. intros H. unfold uint32. apply Z.mod_small. exact H. Qed.

Lemma uint16_range (z : Z) : 0 <= uint16 z < 2 ^ 16.
Proof. unfold uint16. apply Z.mod_pos_bound. lia. Qed.

(** Masking with [0xFFF] keeps the low twelve bits. *)
Lemma land_0xFFF (z : Z) : Z.land z 0xFFF = z mod 2 ^ 12.
Proof. change 0xFFF with (Z.ones 12). apply Z.land_ones. lia. Qed.

(** Masking with the single bit [0x800] tests bit 11. *)
Lemma land_0x800 (z : Z) :
  Z.land z 0x800 = if Z.testbit z 11 then 0x800 else 0.
Proof.
  change 0x800 with (2 ^ 11).
  apply Z.bits_inj'. intros k Hk.
  rewrite Z.land_spec, Z.pow2_bits_eqb by lia.
  destruct (Z.eqb_spec 11 k) as [<- | Hne].
  - destruct (Z.testbit z 11) eqn:E; cbn [andb].
    + symmetry. apply Z.pow2_bits_true. lia.
    + symmetry. apply Z.bits_0.
  - rewrite andb_false_r.
    destruct (Z.testbit z 11).
    + symmetry. apply Z.pow2_bits_false. exact Hne.
    + symmetry. apply Z.bits_0.
Qed.

(** Bit 11 of a twelve-bit code tells the upper half from the lower. *)
Lemma bit11_upper_half (z : Z) :
  0 <= z < 2 ^ 12 -> Z.testbit z 11 = (0x800 <=? z).
Proof.
  intros H.
  rewrite Z.testbit_odd, Z.shiftr_div_pow2 by lia.
  assert (D := Z.div_mod z (2 ^ 11) ltac:(lia)).
  assert (B := Z.mod_pos_bound z (2 ^ 11) ltac:(lia)).
  change (2 ^ 11) with 2048 in *. change (2 ^ 12) with 4096 in *.
  destruct (Z.leb_spec 0x800 z) as [Hge | Hlt].
  - assert (z / 2048 = 1) as -> by lia. reflexivity.
  - assert (z / 2048 = 0) as -> by lia. reflexivity.
Qed.

Lemma bit11_of_masked (z : Z) :
  Z.testbit (z mod 2 ^ 12) 11 = Z.testbit z 11.
Proof. apply Z.mod_pow2_bits_low. lia. Qed.

(** The signed branch, without the conversions that change nothing. *)
Lemma resultAN0_signed (raw : Z) :
  resultAN0_of SIGNED_RIGHT_ALIGNED raw =
  if Z.testbit raw 11
  then Z.land raw 0xFFF - 0x800
  else Z.land raw 0xFFF + 0x800.
Proof.
  unfold resultAN0_of. rewrite Z.eqb_refl.
  rewrite land_0xFFF.
  assert (B := Z.mod_pos_bound raw (2 ^ 12) ltac:(lia)).
  change (2 ^ 12) with 4096 in *.
  rewrite (uint16_small (raw mod 4096)) by (change (2 ^ 16) with 65536; lia).
  rewrite land_0x800.
  change 4096 with (2 ^ 12). rewrite bit11_of_masked.
  destruct (Z.testbit raw 11) eqn:E; cbn [Z.eqb negb].
  - rewrite <- bit11_of_masked, bit11_upper_half in E by exact B.
    apply Z.leb_le in E.
    apply uint16_small. change (2 ^ 12) with 4096 in *.
    change (2 ^ 16) with 65536. lia.
  - apply uint16_small. change (2 ^ 12) with 4096 in *.
    change (2 ^ 16) with 65536. lia.
Qed.

Lemma resultAN0_left (raw : Z) :
  resultAN0_of LEFT_ALIGNED raw = Z.land (Z.shiftr raw 4) 0xFFF.
Proof.
  unfold resultAN0_of.
  change (LEFT_ALIGNED =? SIGNED_RIGHT_ALIGNED) with false.
  rewrite Z.eqb_refl. cbv iota.
  rewrite land_0xFFF. apply uint16_small.
  assert (B := Z.mod_pos_bound (Z.shiftr raw 4) (2 ^ 12) ltac:(lia)).
  change (2 ^ 12) with 4096 in *. change (2 ^ 16) with 65536. lia.
Qed.

(** Whatever the active format, [resultAN0] is a [uint16_t]. *)
Lemma resultAN0_range (outputFormat raw : Z) :
  0 <= raw < 2 ^ 16 -> 0 <= resultAN0_of outputFormat raw < 2 ^ 16.
Proof.
  intros H. unfold resultAN0_of.
  destruct (outputFormat =? SIGNED_RIGHT_ALIGNED).
  - destruct (negb _); apply uint16_range.
  - destruct (outputFormat =? LEFT_ALIGNED); [apply uint16_range | exact H].
Qed.

(** The quotient of line 243 on 16-bit operands: no wrap-around in the
    product, and a value exactly when the divisor is not zero. *)
Lemma millivolts_nonzero (t r : Z) :
  0 <= t < 2 ^ 16 -> 0 < r < 2 ^ 16 ->
  millivolts t r = Some (t * 900 / r).
Proof.
  intros Ht Hr. unfold millivolts, udiv32, BAND_GAP_MV.
  change (2 ^ 16) with 65536 in *.
  rewrite (uint32_small t) by (change (2 ^ 32) with 4294967296; lia).
  rewrite (uint32_small r) by (change (2 ^ 32) with 4294967296; lia).
  rewrite (uint32_small (t * 900)) by (change (2 ^ 32) with 4294967296; lia).
  destruct (Z.eqb_spec r 0) as [E | _]; [lia | reflexivity].
Qed.

Lemma millivolts_zero (t : Z) : millivolts t 0 = None.
Proof. reflexivity. Qed.

(** ** The machine under calls and stores *)

Lemma logged_nil (m : machine) : logged [] m = m.
Proof. destruct m. unfold logged. cbn. rewrite app_nil_r. reflexivity. Qed.

Lemma logged_app (cs1 cs2 : list driver_call) (m : machine) :
  logged cs2 (logged cs1 m) = logged (cs1 ++ cs2) m.
Proof.
  unfold logged, stamp. cbn. rewrite map_app, app_assoc. reflexivity.
Qed.

Lemma index_label (f : OutputFmt) :
  index OUTPUT_FORMAT_STR (fmt_code f) = Some (fmt_label f).
Proof. destruct f; reflexivity. Qed.

Lemma resultAN0_spec (f : OutputFmt) (raw : Z) :
  resultAN0_of (fmt_code f) raw = spec_transform f raw.
Proof.
  destruct f; cbn [fmt_code spec_transform].
  - reflexivity.
  - rewrite resultAN0_signed, land_0xFFF, bit11_of_masked. reflexivity.
  - apply resultAN0_left.
Qed.

(** ** [configure_SAR_ADC] *)

(** The same configuration again: the trigger and nothing else. *)
Lemma configure_same (m : machine) :
  configure_SAR_ADC (g_outputFormat m) (g_averageCount m) m =
  Some (tt, logged [Cy_SAR2_Channel_SoftwareTrigger CE_SAR2_VBG_IDX] m).
Proof.
  unfold configure_SAR_ADC, bind, gets.
  rewrite !Z.eqb_refl. cbn [negb orb].
  destruct m; reflexivity.
Qed.

(** Another configuration: the whole sequence. *)
Lemma configure_differs (m : machine) (outputFormat count : Z) :
  (negb (g_outputFormat m =? outputFormat) || negb (g_averageCount m =? count))
    = true ->
  configure_SAR_ADC outputFormat count m =
  Some (tt, reconfigured outputFormat count (config_for outputFormat count) m).
Proof.
  intros H. unfold configure_SAR_ADC, bind, gets. rewrite H.
  unfold config_for.
  destruct (outputFormat =? UNSIGNED_RIGHT_ALIGNED);
    [ | destruct (outputFormat =? SIGNED_RIGHT_ALIGNED) ];
    destruct m; cbv -[app uint16];
    rewrite <- !app_assoc; reflexivity.
Qed.

Lemma config_for_named (f : OutputFmt) (count : Z) :
  config_for (fmt_code f) count = new_config f count.
Proof. destruct f; reflexivity. Qed.

Lemma configure_other (m : machine) (f : OutputFmt) (count : Z) :
  (negb (g_outputFormat m =? fmt_code f) || negb (g_averageCount m =? count))
    = true ->
  configure_SAR_ADC (fmt_code f) count m =
  Some (tt, reconfigured (fmt_code f) count (new_config f count) m).
Proof.
  intros H. rewrite <- config_for_named. apply configure_differs. exact H.
Qed.

(** ** [handle_SAR_ADC_IRQ] *)

(** Exposes the steps of the handler, leaving [logged] folded. *)
Ltac open_handler :=
  cbv beta iota zeta
    delta [handle_SAR_ADC_IRQ bind call_ret call modify ret gets lift].

Lemma logged_g_outputFormat (cs : list driver_call) (m : machine) :
  g_outputFormat (logged cs m) = g_outputFormat m.
Proof. reflexivity. Qed.

Lemma logged_g_averageCount (cs : list driver_call) (m : machine) :
  g_averageCount (logged cs m) = g_averageCount m.
Proof. reflexivity. Qed.

Lemma logged_g_nextOutputFormat (cs : list driver_call) (m : machine) :
  g_nextOutputFormat (logged cs m) = g_nextOutputFormat m.
Proof. reflexivity. Qed.

Lemma logged_g_nextAverageCount (cs : list driver_call) (m : machine) :
  g_nextAverageCount (logged cs m) = g_nextAverageCount m.
Proof. reflexivity. Qed.

(** Any status but group-done: the status is read and cleared, and the
    handler returns. *)
Lemma handle_other_status (status resVBG resAN0 : Z) (m : machine) :
  status <> CY_SAR2_INT_GRP_DONE ->
  handle_SAR_ADC_IRQ status resVBG resAN0 m =
  Some (tt,
        logged [ Cy_SAR2_Channel_GetInterruptStatus CE_SAR2_AN0_IDX status;
                 Cy_SAR2_Channel_ClearInterrupt CE_SAR2_AN0_IDX status ] m).
Proof.
  intros H. apply Z.eqb_neq in H.
  open_handler. rewrite H, logged_app. reflexivity.
Qed.

(** Group-done with a reference code that is not zero: the reads, the
    rendering, then the reconfiguration step on the pending values. *)
Lemma handle_group_done (f : OutputFmt) (resVBG resAN0 : Z) (m : machine) :
  g_outputFormat m = fmt_code f ->
  uint16 resVBG <> 0 ->
  handle_SAR_ADC_IRQ CY_SAR2_INT_GRP_DONE resVBG resAN0 m =
  configure_SAR_ADC (g_nextOutputFormat m) (g_nextAverageCount m)
    (logged
       (reads CY_SAR2_INT_GRP_DONE resVBG resAN0 ++
        map printf
          (rendering (fmt_label f) (g_averageCount m) (fmt_u (uint16 resAN0))
             (spec_transform f (uint16 resAN0) * 900 / uint16 resVBG)))
       m).
Proof.
  intros Hf Hv.
  assert (Hmv : millivolts (resultAN0_of (fmt_code f) (uint16 resAN0))
                  (uint16 resVBG)
                = Some (spec_transform f (uint16 resAN0) * 900
                        / uint16 resVBG)).
  { rewrite <- resultAN0_spec. apply millivolts_nonzero.
    - apply resultAN0_range, uint16_range.
    - pose proof (uint16_range resVBG). lia. }
  open_handler.
  rewrite Z.eqb_refl, !logged_app.
  rewrite logged_g_outputFormat, Hf, index_label. cbv beta iota.
  rewrite !logged_app, Hmv. cbv beta iota.
  rewrite !logged_app, logged_g_averageCount, logged_g_nextOutputFormat,
    logged_g_nextAverageCount.
  reflexivity.
Qed.

(** Group-done with a reference code of zero: the division of line 243
    has no value. *)
Lemma handle_zero_reference (f : OutputFmt) (resVBG resAN0 : Z) (m : machine) :
  g_outputFormat m = fmt_code f ->
  uint16 resVBG = 0 ->
  handle_SAR_ADC_IRQ CY_SAR2_INT_GRP_DONE resVBG resAN0 m = None.
Proof.
  intros Hf Hv.
  open_handler.
  rewrite Z.eqb_refl, !logged_app.
  rewrite logged_g_outputFormat, Hf, index_label. cbv beta iota.
  rewrite Hv, millivolts_zero.
  reflexivity.
Qed.

(** ** The command loop *)

(** One turn always returns: the byte is read, and the pending values are
    those of [count_after] and [format_after]. *)
Lemma main_loop_body_runs (rx : Z) (m : machine) :
  main_loop_body rx m =
  Some (tt,
        pending (format_after (uint8 rx) (g_nextOutputFormat m))
                (count_after (uint8 rx) (g_nextAverageCount m))
                (logged [Cy_SCB_UART_Get rx] m)).
Proof.
  cbv beta iota zeta
    delta [main_loop_body bind call_ret call modify ret gets
           store_g_nextAverageCount store_g_nextOutputFormat
           count_after format_after].
  destruct (uint8 rx =? chr "a") eqn:Ea;
    destruct (uint8 rx =? chr "d") eqn:Ed;
    cbn [orb andb]; cbv beta iota;
    rewrite ?logged_g_nextAverageCount, ?logged_g_nextOutputFormat.
  - apply Z.eqb_eq in Ea, Ed. rewrite Ea in Ed. discriminate Ed.
  - destruct (negb (uint32 (g_nextAverageCount m) =? AVERAGE_COUNT_MIN));
      destruct m; reflexivity.
  - destruct (negb (uint32 (g_nextAverageCount m) =? AVERAGE_COUNT_MAX));
      destruct m; reflexivity.
  - destruct (uint8 rx =? chr "s"); cbv beta iota;
      rewrite ?logged_g_nextOutputFormat.
    + destruct (int32 (g_nextOutputFormat m + 1) >? LEFT_ALIGNED);
        destruct m; reflexivity.
    + destruct m; reflexivity.
Qed.

Lemma average_count_cases (n : Z) :
  average_count_ok n <->
  n = 1 \/ n = 2 \/ n = 4 \/ n = 8 \/ n = 16 \/ n = 32 \/ n = 64 \/ n = 128
  \/ n = 256.
Proof.
  split.
  - intros (k & Hk & ->).
    assert (k = 0 \/ k = 1 \/ k = 2 \/ k = 3 \/ k = 4 \/ k = 5 \/ k = 6
            \/ k = 7 \/ k = 8) as C by lia.
    repeat (destruct C as [-> | C]; [cbn; tauto | ]).
    subst k. cbn. tauto.
  - intros C.
    repeat (destruct C as [-> | C];
            [ match goal with
              | |- average_count_ok ?v =>
                  exists (Z.log2 v); split; [cbn; lia | reflexivity]
              end | ]).
    subst n. exists 8. split; [lia | reflexivity].
Qed.

(** On a count in range, the shifts and comparisons of the loop halve and
    double with the two bounds respected. *)
Lemma count_after_a (n : Z) :
  average_count_ok n ->
  count_after (chr "a") n = halved n /\ average_count_ok (halved n).
Proof.
  intros H. split; [ | apply average_count_cases ];
    apply average_count_cases in H;
    repeat (destruct H as [-> | H]; [vm_compute; tauto | ]);
    subst n; vm_compute; tauto.
Qed.

Lemma count_after_d (n : Z) :
  average_count_ok n ->
  count_after (chr "d") n = doubled n /\ average_count_ok (doubled n).
Proof.
  intros H. split; [ | apply average_count_cases ];
    apply average_count_cases in H;
    repeat (destruct H as [-> | H]; [vm_compute; tauto | ]);
    subst n; vm_compute; tauto.
Qed.

(** Every byte keeps the count in range. *)
Lemma count_after_ok (c n : Z) :
  average_count_ok n -> average_count_ok (count_after c n).
Proof.
  intros H. unfold count_after.
  destruct (c =? chr "a") eqn:Ea.
  - apply Z.eqb_eq in Ea. subst c.
    destruct (count_after_a n H) as [E Hok].
    unfold count_after in E. rewrite Z.eqb_refl in E.
    rewrite E. exact Hok.
  - cbn [andb].
    destruct (c =? chr "d") eqn:Ed; [ | exact H].
    apply Z.eqb_eq in Ed. subst c.
    destruct (count_after_d n H) as [E Hok].
    unfold count_after in E.
    change (chr "d" =? chr "a") with false in E. cbn [andb] in E.
    rewrite Z.eqb_refl in E.
    rewrite E. exact Hok.
Qed.

(** The byte [s] moves a named format to the next one. *)
Lemma format_after_s (f : OutputFmt) :
  format_after (chr "s") (fmt_code f) = fmt_code (fmt_next f).
Proof. destruct f; reflexivity. Qed.

(** ** Frames *)

Lemma printed_app (t1 t2 : list event) :
  printed (t1 ++ t2) = printed t1 ++ printed t2.
Proof.
  induction t1 as [ | [c a] t1 IH]; [reflexivity | ].
  destruct c; cbn; rewrite IH; reflexivity.
Qed.

(** [configure_SAR_ADC] always returns; it leaves the pending values alone,
    makes its arguments the active configuration, prints nothing, and ends
    with the trigger of the reference channel. *)
Lemma configure_runs (outputFormat averageCount : Z) (m : machine) :
  exists (m' : machine) (earlier : list event),
    configure_SAR_ADC outputFormat averageCount m = Some (tt, m')
    /\ g_nextOutputFormat m' = g_nextOutputFormat m
    /\ g_nextAverageCount m' = g_nextAverageCount m
    /\ g_outputFormat m' = outputFormat
    /\ g_averageCount m' = averageCount
    /\ printed earlier = []
    /\ trace m' =
         trace m ++ earlier ++
         [ stamp m' (Cy_SAR2_Channel_SoftwareTrigger CE_SAR2_VBG_IDX) ].
Proof.
  destruct (negb (g_outputFormat m =? outputFormat)
            || negb (g_averageCount m =? averageCount)) eqn:E.
  - rewrite (configure_differs m outputFormat averageCount E).
    eexists.
    exists (stamp m Cy_SAR2_DeInit
            :: map (stamp (programmed (config_for outputFormat averageCount) m))
                 (bring_up (config_for outputFormat averageCount))).
    split; [reflexivity | ].
    repeat (split; [reflexivity | ]).
    unfold reconfigured. cbn [logged adopt programmed trace map].
    rewrite <- !app_assoc. reflexivity.
  - apply orb_false_elim in E. destruct E as [E1 E2].
    apply negb_false_iff, Z.eqb_eq in E1, E2. subst outputFormat averageCount.
    rewrite configure_same.
    eexists. exists []. split; [reflexivity | ].
    repeat (split; [reflexivity | ]). reflexivity.
Qed.

(** What a group-done interrupt prints and what it leaves, the reference
    code not being zero. *)
Lemma handle_group_done_summary
  (f : OutputFmt) (resVBG resAN0 : Z) (m : machine) :
  g_outputFormat m = fmt_code f ->
  uint16 resVBG <> 0 ->
  exists m' : machine,
    handle_SAR_ADC_IRQ CY_SAR2_INT_GRP_DONE resVBG resAN0 m = Some (tt, m')
    /\ printed (trace m') =
         printed (trace m) ++
         rendering (fmt_label f) (g_averageCount m) (fmt_u (uint16 resAN0))
           (spec_transform f (uint16 resAN0) * 900 / uint16 resVBG)
    /\ g_outputFormat m' = g_nextOutputFormat m
    /\ g_averageCount m' = g_nextAverageCount m.
Proof.
  intros Hf Hv. rewrite (handle_group_done f resVBG resAN0 m Hf Hv).
  match goal with
  | |- exists _, configure_SAR_ADC ?a ?b ?x = _ /\ _ =>
      destruct (configure_runs a b x)
        as (m' & earlier & E & _ & _ & Hfmt & Hcnt & Hp & Ht)
  end.
  exists m'. split; [exact E | ]. split; [ | split; assumption ].
  rewrite Ht, !printed_app, Hp.
  cbn [logged trace]. rewrite printed_app.
  cbn. rewrite app_nil_r. reflexivity.
Qed.

(** ** Runs *)

(** Turns of the loop alone always return, and keep the count in range. *)
Lemma polls_run (rxs : list Z) (m : machine) :
  average_count_ok (g_nextAverageCount m) ->
  exists m' : machine,
    occur_all (map Poll rxs) m = Some (tt, m')
    /\ average_count_ok (g_nextAverageCount m').
Proof.
  revert m. induction rxs as [ | rx rxs IH]; intros m Hok.
  - exists m. split; [reflexivity | exact Hok].
  - cbn [map occur_all occur]. unfold bind.
    rewrite main_loop_body_runs.
    apply IH. cbn [pending g_nextAverageCount].
    apply count_after_ok. exact Hok.
Qed.

Lemma format_after_named (c : Z) (f : OutputFmt) :
  exists f' : OutputFmt, format_after c (fmt_code f) = fmt_code f'.
Proof.
  unfold format_after.
  destruct ((c =? chr "a") || (c =? chr "d")); [exists f; reflexivity | ].
  destruct (c =? chr "s"); [ | exists f; reflexivity ].
  exists (fmt_next f). destruct f; reflexivity.
Qed.

Lemma print_all_runs (texts : list string) (m : machine) :
  print_all texts m = Some (tt, logged (map printf texts) m).
Proof.
  revert m. induction texts as [ | text rest IH]; intros m.
  - cbn [print_all map]. rewrite logged_nil. reflexivity.
  - cbn [print_all map]. unfold bind, call, modify.
    rewrite IH, logged_app. reflexivity.
Qed.

(** Start-up from reset: the banner, then the first call reprograms for the
    defaults. *)
Lemma main_startup_runs (cfg0 : cy_stc_sar2_channel_config_t) :
  main_startup (power_on cfg0) =
  Some (tt,
        reconfigured UNSIGNED_RIGHT_ALIGNED 1
          (new_config UnsignedRightAligned 1)
          (logged (map printf banner) (power_on cfg0))).
Proof.
  unfold main_startup, bind, gets. rewrite print_all_runs.
  apply (configure_other (logged (map printf banner) (power_on cfg0))
           UnsignedRightAligned 1).
  reflexivity.
Qed.

Lemma average_count_bounds (n : Z) : average_count_ok n -> 1 <= n <= 256.
Proof.
  intros H. apply average_count_cases in H.
  repeat (destruct H as [-> | H]; [lia | ]). lia.
Qed.

(** * The claims *)

(** C1: on a group-done interrupt the handler transforms the raw code under
    the ACTIVE format [g_outputFormat]: signed right-aligned masks to twelve
    bits, then subtracts 0x800 when bit 11 is set and adds 0x800 when it is
    clear (0x800 gives 0); left-aligned gives [(raw >> 4) & 0xFFF] (0x8000
    gives 0x800); unsigned right-aligned leaves the raw code as it is.  The
    voltage line printed is computed from the code so transformed. *)
Theorem transform_follows_active_format
  (f : OutputFmt) (resVBG resAN0 : Z) (m : machine) :
  g_outputFormat m = fmt_code f ->
  uint16 resVBG <> 0 ->
  resultAN0_of (g_outputFormat m) (uint16 resAN0)
    = spec_transform f (uint16 resAN0)
  /\ (exists m' : machine,
        handle_SAR_ADC_IRQ CY_SAR2_INT_GRP_DONE resVBG resAN0 m = Some (tt, m')
        /\ printed (trace m') =
             printed (trace m) ++
             rendering (fmt_label f) (g_averageCount m)
               (fmt_u (uint16 resAN0))
               (spec_transform f (uint16 resAN0) * 900 / uint16 resVBG))
  /\ resultAN0_of SIGNED_RIGHT_ALIGNED 0x800 = 0
  /\ resultAN0_of LEFT_ALIGNED 0x8000 = 0x800.
Proof.
  intros Hf Hv. split; [ | split; [ | split; reflexivity ] ].
  - rewrite Hf. apply resultAN0_spec.
  - destruct (handle_group_done_summary f resVBG resAN0 m Hf Hv)
      as (m' & E & Hp & _).
    exists m'. split; assumption.
Qed.

(** C2: when the arguments of the reconfiguration step equal the active
    configuration, the only call made is the software trigger of the
    reference channel, and the globals and the channel configuration are
    what they were (the stores of lines 305-306 write the values the globals
    hold already); and in every invocation, equal or not, the step returns
    and the last call it makes is that trigger. *)
Theorem same_configuration_only_triggers
  (outputFormat averageCount : Z) (m : machine) :
  (g_outputFormat m = outputFormat -> g_averageCount m = averageCount ->
   exists m' : machine,
     configure_SAR_ADC outputFormat averageCount m = Some (tt, m')
     /\ trace m' =
          trace m ++
          [ stamp m (Cy_SAR2_Channel_SoftwareTrigger CE_SAR2_VBG_IDX) ]
     /\ CE_SAR2_AN0_config m' = CE_SAR2_AN0_config m
     /\ g_outputFormat m' = g_outputFormat m
     /\ g_averageCount m' = g_averageCount m
     /\ g_nextOutputFormat m' = g_nextOutputFormat m
     /\ g_nextAverageCount m' = g_nextAverageCount m)
  /\ (exists (m' : machine) (earlier : list event),
        configure_SAR_ADC outputFormat averageCount m = Some (tt, m')
        /\ trace m' =
             trace m ++ earlier ++
             [ stamp m' (Cy_SAR2_Channel_SoftwareTrigger CE_SAR2_VBG_IDX) ]
        /\ g_outputFormat m' = outputFormat
        /\ g_averageCount m' = averageCount).
Proof.
  split.
  - intros <- <-. rewrite configure_same.
    eexists. split; [reflexivity | ].
    repeat split; reflexivity.
  - destruct (configure_runs outputFormat averageCount m)
      as (m' & earlier & E & _ & _ & Hf & Hc & _ & Ht).
    exists m', earlier. repeat split; assumption.
Qed.

(** C3: when the arguments differ from the active configuration in either
    field, the step does, in this order: the teardown, on the channel
    configuration as found; the stores of the exponent of line 272, of the
    count, and of the alignment and sign handling of the format's row in the
    table; the initialisation, which reads them; the reference-buffer mode;
    the group-done interrupt mask and the interrupt set-up, all of these
    while the old configuration is still the active one; then the arguments
    become the active configuration, and the trigger follows. *)
Theorem reconfiguration_sequence
  (f : OutputFmt) (averageCount : Z) (m : machine) :
  g_outputFormat m <> fmt_code f \/ g_averageCount m <> averageCount ->
  exists m' : machine,
    configure_SAR_ADC (fmt_code f) averageCount m = Some (tt, m')
    /\ trace m' =
         trace m ++
         [ stamp m Cy_SAR2_DeInit ] ++
         map (stamp (programmed (new_config f averageCount) m))
           [ Cy_SAR2_Init (new_config f averageCount);
             Cy_SAR2_SetReferenceBufferMode CY_SAR2_REF_BUF_MODE_ON;
             Cy_SAR2_Channel_SetInterruptMask CE_SAR2_AN0_IDX
               CY_SAR2_INT_GRP_DONE;
             Cy_SysInt_Init;
             NVIC_SetPriority 2;
             NVIC_EnableIRQ ] ++
         [ stamp (adopt (fmt_code f) averageCount
                    (programmed (new_config f averageCount) m))
             (Cy_SAR2_Channel_SoftwareTrigger CE_SAR2_VBG_IDX) ]
    /\ CE_SAR2_AN0_config m' = new_config f averageCount
    /\ rightShift (new_config f averageCount) = log_quotient averageCount
    /\ (resultAlignment (new_config f averageCount),
        signExtention (new_config f averageCount)) = format_table f
    /\ g_outputFormat m' = fmt_code f
    /\ g_averageCount m' = averageCount
    /\ g_nextOutputFormat m' = g_nextOutputFormat m
    /\ g_nextAverageCount m' = g_nextAverageCount m.
Proof.
  intros H.
  assert (C : (negb (g_outputFormat m =? fmt_code f)
               || negb (g_averageCount m =? averageCount)) = true).
  { apply orb_true_iff.
    destruct H as [H | H]; [left | right];
      apply negb_true_iff, Z.eqb_neq; exact H. }
  rewrite (configure_other m f averageCount C).
  eexists. split; [reflexivity | ].
  split.
  - unfold reconfigured. cbn [logged adopt programmed trace bring_up map].
    rewrite <- !app_assoc. reflexivity.
  - repeat split; try reflexivity.
    destruct f; reflexivity.
Qed.

(** C4, as amended: for a 16-bit transformed code and a reference code that
    is not zero, the voltage of line 243 is [t * 900 / r] with the quotient
    truncated, the 32-bit product never wrapping; 0x400 over 1024 gives 900. *)
Theorem voltage_formula_nonzero_reference (t r : Z) :
  0 <= t < 2 ^ 16 ->
  0 < r < 2 ^ 16 ->
  millivolts t r = Some (t * BAND_GAP_MV / r)
  /\ BAND_GAP_MV = 900
  /\ millivolts 0x400 1024 = Some 900.
Proof.
  intros Ht Hr. split; [ | split; reflexivity ].
  apply millivolts_nonzero; assumption.
Qed.

(** C5: for a C library whose [log] is correctly rounded at the nine
    counts, line 272 computes exactly the logarithm to base two of every
    power of two between 1 and 256 (1 gives 0, 2 gives 1, 4 gives 2, ...,
    256 gives 8), and that is the exponent a reconfiguration stores in the
    channel configuration and hands to [Cy_SAR2_Init]. *)
Theorem right_shift_exponent_is_log2
  (log : double -> double) (f : OutputFmt) (k : Z) (m : machine) :
  rounds_correctly log ->
  (forall averageCount exponent : Z,
     rightShift_of log averageCount = Some exponent ->
     log_quotient averageCount = exponent) ->
  0 <= k <= 8 ->
  g_outputFormat m <> fmt_code f \/ g_averageCount m <> 2 ^ k ->
  rightShift_of log (2 ^ k) = Some k
  /\ Z.log2 (2 ^ k) = k
  /\ exists m' : machine,
       configure_SAR_ADC (fmt_code f) (2 ^ k) m = Some (tt, m')
       /\ rightShift (CE_SAR2_AN0_config m') = Z.log2 (2 ^ k)
       /\ In (Cy_SAR2_Init (CE_SAR2_AN0_config m')) (map call_of (trace m')).
Proof.
  intros Hlog Hq Hk H.
  assert (R : rightShift_of log (2 ^ k) = Some k).
  { pose proof (Hlog 1 ltac:(lia)) as L1. change (2 ^ 1) with 2 in L1.
    unfold rightShift_of. rewrite (Hlog k Hk), L1.
    assert (k = 0 \/ k = 1 \/ k = 2 \/ k = 3 \/ k = 4 \/ k = 5 \/ k = 6
            \/ k = 7 \/ k = 8) as C by lia.
    repeat (destruct C as [-> | C]; [vm_compute; reflexivity | ]).
    subst k. vm_compute. reflexivity. }
  assert (L : Z.log2 (2 ^ k) = k) by (apply Z.log2_pow2; lia).
  split; [exact R | ]. split; [exact L | ].
  assert (C : (negb (g_outputFormat m =? fmt_code f)
               || negb (g_averageCount m =? 2 ^ k)) = true).
  { apply orb_true_iff.
    destruct H as [H | H]; [left | right];
      apply negb_true_iff, Z.eqb_neq; exact H. }
  rewrite (configure_other m f (2 ^ k) C).
  eexists. split; [reflexivity | ].
  split.
  - cbn [reconfigured logged adopt programmed CE_SAR2_AN0_config new_config
         rightShift].
    rewrite L. apply Hq. exact R.
  - unfold reconfigured.
    cbn [logged adopt programmed trace CE_SAR2_AN0_config bring_up map].
    rewrite !map_app. cbn [map stamp call_of].
    apply in_or_app. left. apply in_or_app. right. left. reflexivity.
Qed.

(** C6: from the defaults, after any sequence of bytes received by the
    loop, [g_nextAverageCount] is a power of two between 1 and 256; from
    there the byte [a] halves it unless it is 1, the byte [d] doubles it
    unless it is 256, and neither leaves the range. *)
Theorem pending_count_stays_power_of_two
  (cfg0 : cy_stc_sar2_channel_config_t) (rxs : list Z) :
  exists m : machine,
    main (map Poll rxs) (power_on cfg0) = Some (tt, m)
    /\ average_count_ok (g_nextAverageCount m)
    /\ (exists ma : machine,
          main_loop_body (chr "a") m = Some (tt, ma)
          /\ g_nextAverageCount ma = halved (g_nextAverageCount m)
          /\ 1 <= g_nextAverageCount ma <= 256)
    /\ (exists md : machine,
          main_loop_body (chr "d") m = Some (tt, md)
          /\ g_nextAverageCount md = doubled (g_nextAverageCount m)
          /\ 1 <= g_nextAverageCount md <= 256).
Proof.
  unfold main, bind. rewrite main_startup_runs.
  match goal with
  | |- exists _, occur_all _ ?m0 = _ /\ _ =>
      destruct (polls_run rxs m0) as (m & E & Hok)
  end.
  { exists 0. split; [lia | reflexivity]. }
  exists m. split; [exact E | ]. split; [exact Hok | ].
  split.
  - rewrite main_loop_body_runs. eexists. split; [reflexivity | ].
    cbn [pending g_nextAverageCount].
    change (uint8 (chr "a")) with (chr "a").
    destruct (count_after_a _ Hok) as [-> Hh].
    split; [reflexivity | apply average_count_bounds, Hh].
  - rewrite main_loop_body_runs. eexists. split; [reflexivity | ].
    cbn [pending g_nextAverageCount].
    change (uint8 (chr "d")) with (chr "d").
    destruct (count_after_d _ Hok) as [-> Hd].
    split; [reflexivity | apply average_count_bounds, Hd].
Qed.

(** C7: the byte [s] moves the pending format to the next of the three
    named formats, the last followed by the first; three such bytes bring
    back the format they started from. *)
Theorem format_cycles_in_three (f : OutputFmt) (m : machine) :
  g_nextOutputFormat m = fmt_code f ->
  (exists m1 : machine,
     main_loop_body (chr "s") m = Some (tt, m1)
     /\ g_nextOutputFormat m1 = fmt_code (fmt_next f)
     /\ g_nextAverageCount m1 = g_nextAverageCount m)
  /\ fmt_next LeftAligned = UnsignedRightAligned
  /\ (exists m3 : machine,
        occur_all [Poll (chr "s"); Poll (chr "s"); Poll (chr "s")] m
          = Some (tt, m3)
        /\ g_nextOutputFormat m3 = fmt_code f)
  /\ fmt_next (fmt_next (fmt_next f)) = f.
Proof.
  intros Hf. split; [ | split; [reflexivity | split ] ].
  - rewrite main_loop_body_runs. eexists. split; [reflexivity | ].
    cbn [pending g_nextOutputFormat g_nextAverageCount].
    change (uint8 (chr "s")) with (chr "s").
    rewrite Hf, format_after_s. split; reflexivity.
  - cbn [occur_all occur]. unfold bind, ret.
    rewrite !main_loop_body_runs. eexists. split; [reflexivity | ].
    cbn [pending g_nextOutputFormat logged].
    change (uint8 (chr "s")) with (chr "s").
    rewrite Hf, !format_after_s. destruct f; reflexivity.
  - destruct f; reflexivity.
Qed.

(** C8: for any interrupt status but group-done the handler reads and
    clears the status and returns: no result is read, nothing is printed,
    the reconfiguration step is not entered, and the globals and the channel
    configuration are what they were. *)
Theorem other_status_is_ignored (status resVBG resAN0 : Z) (m : machine) :
  status <> CY_SAR2_INT_GRP_DONE ->
  exists m' : machine,
    handle_SAR_ADC_IRQ status resVBG resAN0 m = Some (tt, m')
    /\ trace m' =
         trace m ++
         map (stamp m)
           [ Cy_SAR2_Channel_GetInterruptStatus CE_SAR2_AN0_IDX status;
             Cy_SAR2_Channel_ClearInterrupt CE_SAR2_AN0_IDX status ]
    /\ printed (trace m') = printed (trace m)
    /\ CE_SAR2_AN0_config m' = CE_SAR2_AN0_config m
    /\ g_outputFormat m' = g_outputFormat m
    /\ g_averageCount m' = g_averageCount m
    /\ g_nextOutputFormat m' = g_nextOutputFormat m
    /\ g_nextAverageCount m' = g_nextAverageCount m.
Proof.
  intros H. rewrite (handle_other_status status resVBG resAN0 m H).
  eexists. split; [reflexivity | ].
  split; [reflexivity | ].
  split; [ | repeat split; reflexivity ].
  cbn [logged trace]. rewrite printed_app. cbn. apply app_nil_r.
Qed.

(** C9, at the failing input: after start-up the byte [s], a group-done
    interrupt that makes the signed format active, and a second one with the
    raw code 255.  Each rendering is the label, the count, the raw code and
    the voltage, each ended by CR LF, and the cursor moved up four lines.
    The second shows the raw code 255, not the transformed code 2303 from
    which its voltage is computed; and it shows it as [0x255], the decimal
    digits of the code behind the prefix [0x], where the hexadecimal digits
    of the code are [ff]. *)
Theorem raw_value_line_is_decimal (cfg0 : cy_stc_sar2_channel_config_t) :
  exists m : machine,
    main [ Poll (chr "s");
           Irq CY_SAR2_INT_GRP_DONE 1024 0;
           Irq CY_SAR2_INT_GRP_DONE 1024 255 ] (power_on cfg0) = Some (tt, m)
    /\ printed (trace m) =
         banner ++
         [ "Output format: Unsigned/Right Aligned" ++ CRLF
           ++ "Average count: 1" ++ CRLF;
           "Conversion result raw value: 0x0" ++ CRLF;
           "Potentiometer voltage: 0mV" ++ CRLF;
           ESC ++ "[4F";
           "Output format: Signed/Right Aligned  " ++ CRLF
           ++ "Average count: 1" ++ CRLF;
           "Conversion result raw value: 0x255" ++ CRLF;
           "Potentiometer voltage: 2024mV" ++ CRLF;
           ESC ++ "[4F" ]%string
    /\ resultAN0_of SIGNED_RIGHT_ALIGNED 255 = 2303
    /\ fmt_u 255 = "255"%string
    /\ fmt_x 255 = "ff"%string.
Proof.
  unfold main, bind. rewrite main_startup_runs.
  cbn [occur_all occur]. unfold bind, ret.
  rewrite main_loop_body_runs.
  match goal with
  | |- exists _, match handle_SAR_ADC_IRQ _ ?v ?a ?m1 with _ => _ end = _ /\ _ =>
      destruct (handle_group_done_summary UnsignedRightAligned v a m1)
        as (m2 & E2 & Hp2 & Hf2 & Hc2);
        [ reflexivity | discriminate | rewrite E2 ]
  end.
  destruct (handle_group_done_summary SignedRightAligned 1024 255 m2)
    as (m3 & E3 & Hp3 & _); [ exact Hf2 | discriminate | rewrite E3 ].
  exists m3. split; [reflexivity | ].
  split; [ | repeat split; reflexivity ].
  rewrite Hp3, Hp2, Hc2. reflexivity.
Qed.

(** C10: on a group-done interrupt the division of line 243 has no guard.
    With a reference code that is not zero the voltage is the truncated
    quotient and the handler returns having printed it; with a reference
    code of zero the division is by zero and the handler has no result. *)
Theorem reference_code_must_not_be_zero
  (f : OutputFmt) (resVBG resAN0 : Z) (m : machine) :
  g_outputFormat m = fmt_code f ->
  (uint16 resVBG <> 0 ->
   millivolts (resultAN0_of (fmt_code f) (uint16 resAN0)) (uint16 resVBG)
     = Some (resultAN0_of (fmt_code f) (uint16 resAN0) * 900 / uint16 resVBG)
   /\ exists m' : machine,
        handle_SAR_ADC_IRQ CY_SAR2_INT_GRP_DONE resVBG resAN0 m = Some (tt, m')
        /\ printed (trace m') =
             printed (trace m) ++
             rendering (fmt_label f) (g_averageCount m)
               (fmt_u (uint16 resAN0))
               (resultAN0_of (fmt_code f) (uint16 resAN0) * 900
                / uint16 resVBG))
  /\ (uint16 resVBG = 0 ->
      millivolts (resultAN0_of (fmt_code f) (uint16 resAN0)) (uint16 resVBG)
        = None
      /\ handle_SAR_ADC_IRQ CY_SAR2_INT_GRP_DONE resVBG resAN0 m = None).
Proof.
  intros Hf. split.
  - intros Hv. split.
    + apply millivolts_nonzero.
      * apply resultAN0_range, uint16_range.
      * pose proof (uint16_range resVBG). lia.
    + destruct (handle_group_done_summary f resVBG resAN0 m Hf Hv)
        as (m' & E & Hp & _).
      exists m'. split; [exact E | ].
      rewrite resultAN0_spec. exact Hp.
  - intros Hv. split.
    + rewrite Hv. apply millivolts_zero.
    + apply (handle_zero_reference f); assumption.
Qed.

(** * Further properties *)

(** ** The handler made explicit *)

Lemma named_code (f : OutputFmt) : named (fmt_code f) = f.
Proof. destruct f; reflexivity. Qed.

Lemma handle_group_done_explicit
  (f : OutputFmt) (resVBG resAN0 : Z) (m : machine) :
  g_outputFormat m = fmt_code f ->
  uint16 resVBG <> 0 ->
  handle_SAR_ADC_IRQ CY_SAR2_INT_GRP_DONE resVBG resAN0 m =
  Some (tt, after_group_done f resVBG resAN0 m).
Proof.
  intros Hf Hv. rewrite (handle_group_done f resVBG resAN0 m Hf Hv).
  fold (sampled f resVBG resAN0 m). unfold after_group_done.
  destruct (negb (g_outputFormat m =? g_nextOutputFormat m)
            || negb (g_averageCount m =? g_nextAverageCount m)) eqn:E.
  - apply (configure_differs (sampled f resVBG resAN0 m)). exact E.
  - apply orb_false_elim in E. destruct E as [E1 E2].
    apply negb_false_iff, Z.eqb_eq in E1, E2.
    rewrite <- E1, <- E2.
    exact (configure_same (sampled f resVBG resAN0 m)).
Qed.

Lemma index_outside (z : Z) :
  z < 0 \/ 2 < z -> index OUTPUT_FORMAT_STR z = None.
Proof.
  intros H. unfold index.
  destruct (Z.ltb_spec z 0) as [_ | Hz]; [reflexivity | ].
  apply nth_error_None. cbn [OUTPUT_FORMAT_STR List.length]. lia.
Qed.

Lemma handle_unnamed_format (resVBG resAN0 : Z) (m : machine) :
  g_outputFormat m < 0 \/ 2 < g_outputFormat m ->
  handle_SAR_ADC_IRQ CY_SAR2_INT_GRP_DONE resVBG resAN0 m = None.
Proof.
  intros H. open_handler.
  rewrite Z.eqb_refl, !logged_app, logged_g_outputFormat.
  rewrite (index_outside _ H). reflexivity.
Qed.

Lemma code_named (z : Z) : 0 <= z <= 2 -> fmt_code (named z) = z.
Proof.
  intros H. assert (z = 0 \/ z = 1 \/ z = 2) as [-> | [-> | ->]] by lia;
    reflexivity.
Qed.

Lemma after_group_done_globals
  (f : OutputFmt) (resVBG resAN0 : Z) (m : machine) :
  g_outputFormat (after_group_done f resVBG resAN0 m) = g_nextOutputFormat m
  /\ g_averageCount (after_group_done f resVBG resAN0 m)
     = g_nextAverageCount m
  /\ g_nextOutputFormat (after_group_done f resVBG resAN0 m)
     = g_nextOutputFormat m
  /\ g_nextAverageCount (after_group_done f resVBG resAN0 m)
     = g_nextAverageCount m.
Proof.
  unfold after_group_done.
  destruct (negb (g_outputFormat m =? g_nextOutputFormat m)
            || negb (g_averageCount m =? g_nextAverageCount m)) eqn:E.
  - repeat split; reflexivity.
  - apply orb_false_elim in E. destruct E as [E1 E2].
    apply negb_false_iff, Z.eqb_eq in E1, E2.
    cbn [logged sampled g_outputFormat g_averageCount g_nextOutputFormat
         g_nextAverageCount].
    repeat split; assumption || reflexivity.
Qed.

Lemma fmt_code_range (f : OutputFmt) : 0 <= fmt_code f <= 2.
Proof.
  destruct f;
    unfold fmt_code, UNSIGNED_RIGHT_ALIGNED, SIGNED_RIGHT_ALIGNED,
      LEFT_ALIGNED; lia.
Qed.

(** The handler, when it returns, leaves the machine of [after], whatever
    the machine it starts on. *)
Lemma handle_after (i : interrupt) (m m' : machine) :
  handle i m = Some (tt, m') -> m' = after i m.
Proof.
  destruct i as [status resVBG resAN0]. cbn [handle after].
  destruct (Z.eqb_spec status CY_SAR2_INT_GRP_DONE) as [-> | Hne].
  - intros E.
    destruct (Z_lt_ge_dec (g_outputFormat m) 0) as [Hlo | Hlo].
    { rewrite handle_unnamed_format in E by (left; exact Hlo).
      discriminate E. }
    destruct (Z_lt_ge_dec 2 (g_outputFormat m)) as [Hhi | Hhi].
    { rewrite handle_unnamed_format in E by (right; exact Hhi).
      discriminate E. }
    assert (Hf : g_outputFormat m = fmt_code (named (g_outputFormat m))).
    { symmetry. apply code_named. lia. }
    destruct (Z.eq_dec (uint16 resVBG) 0) as [Hz | Hnz].
    + rewrite (handle_zero_reference _ resVBG resAN0 m Hf Hz) in E.
      discriminate E.
    + rewrite (handle_group_done_explicit _ resVBG resAN0 m Hf Hnz) in E.
      injection E as <-. reflexivity.
  - rewrite (handle_other_status status resVBG resAN0 m Hne).
    intros [= <-]. reflexivity.
Qed.

(** On a named active format the handler returns exactly when the
    interrupt is not a group-done one with a reference code of zero. *)
Lemma handle_named (i : interrupt) (f : OutputFmt) (m : machine) :
  g_outputFormat m = fmt_code f ->
  handle i m = if with_reference i then Some (tt, after i m) else None.
Proof.
  destruct i as [status resVBG resAN0]. cbn [handle after with_reference].
  intros Hf.
  destruct (Z.eqb_spec status CY_SAR2_INT_GRP_DONE) as [-> | Hne];
    cbn [negb orb].
  - destruct (Z.eqb_spec (uint16 resVBG) 0) as [Hz | Hnz]; cbn [negb].
    + apply (handle_zero_reference f); assumption.
    + rewrite Hf, named_code.
      apply handle_group_done_explicit; assumption.
  - apply handle_other_status. exact Hne.
Qed.

(** An interrupt that is not a group-done one is taken on any machine, and
    changes the trace alone. *)
Lemma handle_quiet (i : interrupt) (m : machine) :
  is_group_done i = false ->
  handle i m = Some (tt, after i m)
  /\ with_reference i = true
  /\ g_outputFormat (after i m) = g_outputFormat m
  /\ g_averageCount (after i m) = g_averageCount m
  /\ g_nextOutputFormat (after i m) = g_nextOutputFormat m
  /\ g_nextAverageCount (after i m) = g_nextAverageCount m.
Proof.
  destruct i as [status resVBG resAN0].
  cbn [is_group_done handle after with_reference]. intros Hq. rewrite Hq.
  apply Z.eqb_neq in Hq.
  split; [apply handle_other_status; exact Hq | ].
  repeat split; reflexivity.
Qed.

Lemma after_pending (i : interrupt) (m : machine) :
  g_nextOutputFormat (after i m) = g_nextOutputFormat m
  /\ g_nextAverageCount (after i m) = g_nextAverageCount m.
Proof.
  destruct i as [status resVBG resAN0]. cbn [after].
  destruct (status =? CY_SAR2_INT_GRP_DONE); [ | split; reflexivity ].
  destruct (after_group_done_globals (named (g_outputFormat m))
              resVBG resAN0 m) as (_ & _ & Hf & Hc).
  split; assumption.
Qed.

Lemma after_active (i : interrupt) (m : machine) :
  (g_outputFormat (after i m) = g_outputFormat m
   /\ g_averageCount (after i m) = g_averageCount m)
  \/ (g_outputFormat (after i m) = g_nextOutputFormat m
      /\ g_averageCount (after i m) = g_nextAverageCount m).
Proof.
  destruct i as [status resVBG resAN0]. cbn [after].
  destruct (status =? CY_SAR2_INT_GRP_DONE);
    [ | left; split; reflexivity ].
  destruct (after_group_done_globals (named (g_outputFormat m))
              resVBG resAN0 m) as (Hf & Hc & _).
  right. split; assumption.
Qed.

Lemma after_settled (i : interrupt) (m : machine) :
  settled m -> settled (after i m).
Proof.
  intros (Haf & Hnf & Hac & Hnc).
  destruct (after_pending i m) as [Pf Pc].
  unfold settled. rewrite Pf, Pc.
  destruct (after_active i m) as [[Af Ac] | [Af Ac]]; rewrite Af, Ac;
    repeat split; assumption.
Qed.

Lemma after_loose (i : interrupt) (m : machine) :
  loose m -> loose (after i m).
Proof.
  intros (Hnf & Haf & Hac & Hnc).
  destruct (after_pending i m) as [Pf Pc].
  unfold loose. rewrite Pf, Pc.
  destruct (after_active i m) as [[Af Ac] | [Af Ac]]; rewrite Af, Ac;
    repeat split; assumption || apply Hnf || apply Haf.
Qed.

Lemma after_steady (i : interrupt) (m : machine) :
  steady m -> steady (after i m).
Proof.
  intros ([f Hnf] & Haf & Hac & Hnc).
  destruct (after_pending i m) as [Pf Pc].
  unfold steady. rewrite Pf, Pc.
  destruct (after_active i m) as [[Af Ac] | [Af Ac]]; rewrite Af, Ac.
  - split; [exists f; exact Hnf | ]. repeat split; assumption || apply Haf.
  - split; [exists f; exact Hnf | ].
    rewrite Hnf. pose proof (fmt_code_range f) as R.
    unfold FORMAT_NUM. repeat split; assumption || lia.
Qed.

Lemma after_in_step (i : interrupt) (m : machine) :
  in_step m -> in_step (after i m).
Proof.
  unfold in_step. intros H.
  destruct i as [status resVBG resAN0]. cbn [after].
  destruct (status =? CY_SAR2_INT_GRP_DONE); [ | exact H ].
  unfold after_group_done.
  destruct (negb (g_outputFormat m =? g_nextOutputFormat m)
            || negb (g_averageCount m =? g_nextAverageCount m)).
  - reflexivity.
  - exact H.
Qed.

(** ** Interrupts in a row *)

Lemma handle_all_after (irqs : list interrupt) (m m' : machine) :
  handle_all irqs m = Some (tt, m') -> m' = after_all irqs m.
Proof.
  revert m. induction irqs as [ | i irqs IH]; intros m.
  - intros [= <-]. reflexivity.
  - cbn [handle_all after_all]. unfold bind.
    destruct (handle i m) as [[[] m1] | ] eqn:E; [ | discriminate ].
    rewrite <- (handle_after i m m1 E). apply IH.
Qed.

Lemma after_all_preserves (I : machine -> Prop) :
  (forall i m, I m -> I (after i m)) ->
  forall (irqs : list interrupt) (m : machine), I m -> I (after_all irqs m).
Proof.
  intros Step irqs. induction irqs as [ | i irqs IH]; intros m Hi.
  - exact Hi.
  - cbn [after_all]. apply IH, Step, Hi.
Qed.

(** On settled globals, interrupts in a row are all taken exactly when none
    is a group-done one with a reference code of zero. *)
Lemma handle_all_settled (irqs : list interrupt) (m : machine) :
  settled m ->
  handle_all irqs m =
  if forallb with_reference irqs then Some (tt, after_all irqs m) else None.
Proof.
  revert m. induction irqs as [ | i irqs IH]; intros m Hs.
  - reflexivity.
  - cbn [handle_all after_all forallb]. unfold bind.
    destruct Hs as ([f Hf] & Hrest).
    rewrite (handle_named i f m Hf).
    destruct (with_reference i); cbn [andb]; [ | reflexivity ].
    apply IH, after_settled. split; [exists f; exact Hf | exact Hrest].
Qed.

(** Interrupts none of which is a group-done one are taken on any machine,
    and leave the globals alone. *)
Lemma handle_all_quiet (irqs : list interrupt) (m : machine) :
  forallb (fun i => negb (is_group_done i)) irqs = true ->
  handle_all irqs m = Some (tt, after_all irqs m)
  /\ forallb with_reference irqs = true
  /\ g_outputFormat (after_all irqs m) = g_outputFormat m
  /\ g_averageCount (after_all irqs m) = g_averageCount m
  /\ g_nextOutputFormat (after_all irqs m) = g_nextOutputFormat m
  /\ g_nextAverageCount (after_all irqs m) = g_nextAverageCount m.
Proof.
  revert m. induction irqs as [ | i irqs IH]; intros m Hq.
  - repeat split; reflexivity.
  - cbn [forallb] in Hq. apply andb_true_iff in Hq. destruct Hq as [Hi Hq].
    apply negb_true_iff in Hi.
    destruct (handle_quiet i m Hi) as (E & Hw & G1 & G2 & G3 & G4).
    destruct (IH (after i m) Hq) as (E' & Hw' & G1' & G2' & G3' & G4').
    cbn [handle_all after_all forallb]. unfold bind. rewrite E, Hw, Hw'.
    split; [exact E' | ]. split; [reflexivity | ].
    rewrite G1', G2', G3', G4'. repeat split; assumption.
Qed.

(** ** The parts of a turn *)

Lemma fetch_runs (rx : Z) (m : machine) :
  call_ret Cy_SCB_UART_Get rx m = Some (rx, logged [Cy_SCB_UART_Get rx] m).
Proof. reflexivity. Qed.

Lemma main_loop_store_runs (c : Z) (m : machine) :
  main_loop_store c m = Some (incremented c m, stored c m).
Proof.
  cbv beta iota zeta
    delta [main_loop_store bind modify ret gets incremented stored
           store_g_nextAverageCount store_g_nextOutputFormat count_after].
  destruct (c =? chr "a") eqn:Ea; destruct (c =? chr "d") eqn:Ed;
    cbn [orb andb]; cbv beta iota.
  - apply Z.eqb_eq in Ea, Ed. rewrite Ea in Ed. discriminate Ed.
  - destruct (negb (uint32 (g_nextAverageCount m) =? AVERAGE_COUNT_MIN));
      destruct m; reflexivity.
  - destruct (negb (uint32 (g_nextAverageCount m) =? AVERAGE_COUNT_MAX));
      destruct m; reflexivity.
  - destruct (c =? chr "s"); destruct m; reflexivity.
Qed.

Lemma main_loop_wrap_runs (value : option Z) (m : machine) :
  main_loop_wrap value m = Some (tt, wrapped value m).
Proof.
  destruct value as [format | ]; cbn [main_loop_wrap wrapped];
    [ | reflexivity ].
  destruct (format >? LEFT_ALIGNED); [ | reflexivity ].
  destruct m; reflexivity.
Qed.

(** A turn with interrupts inside it, part by part. *)
Lemma occur_preempted (rx : Z) (early late : list interrupt) (m : machine) :
  occur (Preempted rx early late) m =
  match handle_all early (logged [Cy_SCB_UART_Get rx] m) with
  | Some (_, m2) =>
      match handle_all late (stored (uint8 rx) m2) with
      | Some (_, m4) => Some (tt, wrapped (incremented (uint8 rx) m2) m4)
      | None => None
      end
  | None => None
  end.
Proof.
  cbn [occur]. unfold bind. rewrite fetch_runs.
  destruct (handle_all early (logged [Cy_SCB_UART_Get rx] m))
    as [[[] m2] | ]; [ | reflexivity ].
  rewrite main_loop_store_runs.
  destruct (handle_all late (stored (uint8 rx) m2)) as [[[] m4] | ];
    [ | reflexivity ].
  apply main_loop_wrap_runs.
Qed.

(** The two parts put together are the turn. *)
Lemma wrapped_stored (c : Z) (m : machine) :
  wrapped (incremented c m) (stored c m) =
  pending (format_after c (g_nextOutputFormat m))
          (count_after c (g_nextAverageCount m)) m.
Proof.
  unfold wrapped, incremented, stored, format_after.
  destruct ((c =? chr "a") || (c =? chr "d")); [reflexivity | ].
  destruct (c =? chr "s"); [ | reflexivity ].
  destruct (int32 (g_nextOutputFormat m + 1) >? LEFT_ALIGNED); reflexivity.
Qed.

(** A turn that no interrupt comes into is the loop body of [main]. *)
Lemma main_loop_body_split (rx : Z) (m : machine) :
  main_loop_body rx m = occur (Preempted rx [] []) m.
Proof.
  rewrite main_loop_body_runs, occur_preempted.
  cbn [handle_all ret]. rewrite wrapped_stored. reflexivity.
Qed.

Lemma main_from_started (cfg0 : cy_stc_sar2_channel_config_t)
  (os : list occurrence) :
  main os (power_on cfg0) = occur_all os (started cfg0).
Proof. unfold main, bind. rewrite main_startup_runs. reflexivity. Qed.

(** ** Invariants of a run *)

(** What holds between two occurrences ([I]) and inside a turn, after its
    first store ([J], which knows the value of the increment expression),
    holds along a run when every part of an occurrence keeps it. *)
Lemma occur_preserves (I : machine -> Prop) (J : option Z -> machine -> Prop) :
  (forall i m, I m -> I (after i m)) ->
  (forall value i m, J value m -> J value (after i m)) ->
  (forall rx m, I m -> I (logged [Cy_SCB_UART_Get rx] m)) ->
  (forall c m, I m -> J (incremented c m) (stored c m)) ->
  (forall value m, J value m -> I (wrapped value m)) ->
  forall (o : occurrence) (m m' : machine),
    I m -> occur o m = Some (tt, m') -> I m'.
Proof.
  intros Hi Hj Hf Hs Hw o m m' Im.
  assert (P : forall rx early late,
            occur (Preempted rx early late) m = Some (tt, m') -> I m').
  { intros rx early late. rewrite occur_preempted.
    destruct (handle_all early (logged [Cy_SCB_UART_Get rx] m))
      as [[[] m2] | ] eqn:E2; [ | discriminate ].
    destruct (handle_all late (stored (uint8 rx) m2))
      as [[[] m4] | ] eqn:E4; [ | discriminate ].
    intros [= <-]. apply Hw.
    rewrite (handle_all_after _ _ _ E4).
    apply after_all_preserves; [apply Hj | ]. apply Hs.
    rewrite (handle_all_after _ _ _ E2).
    apply after_all_preserves; [exact Hi | ]. apply Hf, Im. }
  destruct o as [rx | status resVBG resAN0 | rx early late].
  - cbn [occur]. rewrite main_loop_body_split. apply P.
  - intros E. rewrite (handle_after (Interrupt status resVBG resAN0) m m' E).
    apply Hi, Im.
  - apply P.
Qed.

Lemma occur_all_preserves (I : machine -> Prop)
  (J : option Z -> machine -> Prop) :
  (forall i m, I m -> I (after i m)) ->
  (forall value i m, J value m -> J value (after i m)) ->
  (forall rx m, I m -> I (logged [Cy_SCB_UART_Get rx] m)) ->
  (forall c m, I m -> J (incremented c m) (stored c m)) ->
  (forall value m, J value m -> I (wrapped value m)) ->
  forall (os : list occurrence) (m m' : machine),
    I m -> occur_all os m = Some (tt, m') -> I m'.
Proof.
  intros Hi Hj Hf Hs Hw os. induction os as [ | o os IH]; intros m m' Im.
  - intros [= <-]. exact Im.
  - cbn [occur_all]. unfold bind.
    destruct (occur o m) as [[[] m1] | ] eqn:E; [ | discriminate ].
    apply IH. exact (occur_preserves I J Hi Hj Hf Hs Hw o m m1 Im E).
Qed.

(** The same for a property that does not look at the pending format. *)
Lemma occur_all_invariant (I : machine -> Prop) :
  (forall i m, I m -> I (after i m)) ->
  (forall rx m, I m -> I (logged [Cy_SCB_UART_Get rx] m)) ->
  (forall c m, I m -> I (stored c m)) ->
  (forall value m, I m -> I (wrapped value m)) ->
  forall (os : list occurrence) (m m' : machine),
    I m -> occur_all os m = Some (tt, m') -> I m'.
Proof.
  intros Hi Hf Hs Hw.
  apply (occur_all_preserves I (fun _ => I)); try assumption.
  intros _. exact Hi.
Qed.

Lemma wrapped_trace (value : option Z) (m : machine) :
  trace (wrapped value m) = trace m.
Proof.
  destruct value as [format | ]; cbn [wrapped]; [ | reflexivity ].
  destruct (format >? LEFT_ALIGNED); reflexivity.
Qed.

Lemma wrapped_config (value : option Z) (m : machine) :
  CE_SAR2_AN0_config (wrapped value m) = CE_SAR2_AN0_config m
  /\ g_outputFormat (wrapped value m) = g_outputFormat m
  /\ g_averageCount (wrapped value m) = g_averageCount m
  /\ g_nextAverageCount (wrapped value m) = g_nextAverageCount m.
Proof.
  destruct value as [format | ]; cbn [wrapped];
    [ | repeat split; reflexivity ].
  destruct (format >? LEFT_ALIGNED); repeat split; reflexivity.
Qed.

(** Whenever a run from reset returns, the channel configuration is the one
    lines 272-289 compute from the active configuration. *)
Lemma main_in_step (cfg0 : cy_stc_sar2_channel_config_t)
  (os : list occurrence) (m : machine) :
  main os (power_on cfg0) = Some (tt, m) -> in_step m.
Proof.
  rewrite main_from_started.
  apply (occur_all_invariant in_step).
  - exact after_in_step.
  - intros rx m1 H. exact H.
  - intros c m1 H. exact H.
  - intros value m1. unfold in_step.
    destruct (wrapped_config value m1) as (-> & -> & -> & _).
    intros H. exact H.
  - reflexivity.
Qed.

Lemma stored_steady (c : Z) (m : machine) :
  steady m ->
  loose (stored c m)
  /\ match incremented c m with
     | Some format => g_nextOutputFormat (stored c m) = format
     | None => exists f : OutputFmt, g_nextOutputFormat (stored c m) = fmt_code f
     end.
Proof.
  intros ([f Hnf] & Haf & Hac & Hnc).
  pose proof (fmt_code_range f) as R.
  unfold loose, incremented, stored.
  cbn [pending g_nextOutputFormat g_nextAverageCount g_outputFormat
       g_averageCount].
  assert (Hc : average_count_ok (count_after c (g_nextAverageCount m)))
    by (apply count_after_ok; exact Hnc).
  destruct ((c =? chr "a") || (c =? chr "d")).
  { rewrite Hnf. unfold FORMAT_NUM.
    split; [repeat split; assumption || lia || apply Haf | ].
    exists f. reflexivity. }
  destruct (c =? chr "s").
  - split; [ | reflexivity ].
    rewrite Hnf. unfold FORMAT_NUM.
    split; [destruct f; vm_compute; split; discriminate | ].
    repeat split; assumption || apply Haf.
  - rewrite Hnf. unfold FORMAT_NUM.
    split; [repeat split; assumption || lia || apply Haf | ].
    exists f. reflexivity.
Qed.

Lemma wrapped_steady (value : option Z) (m : machine) :
  loose m ->
  match value with
  | Some format => g_nextOutputFormat m = format
  | None => exists f : OutputFmt, g_nextOutputFormat m = fmt_code f
  end ->
  steady (wrapped value m).
Proof.
  intros (Hnf & Haf & Hac & Hnc) Hv.
  destruct value as [format | ]; cbn [wrapped].
  - subst format.
    destruct (Z.gtb_spec (g_nextOutputFormat m) LEFT_ALIGNED) as [Hgt | Hle].
    + split; [exists UnsignedRightAligned; reflexivity | ].
      repeat split; assumption || apply Haf.
    + split.
      * exists (named (g_nextOutputFormat m)). symmetry. apply code_named.
        unfold LEFT_ALIGNED in Hle. lia.
      * repeat split; assumption || apply Haf.
  - split; [exact Hv | ]. repeat split; assumption || apply Haf.
Qed.

(** Whenever a run from reset returns, whatever the interrupts and wherever
    they come, the pending format is a named one, the active format is an
    enumerator and both counts are powers of two in range. *)
Lemma main_steady (cfg0 : cy_stc_sar2_channel_config_t)
  (os : list occurrence) (m : machine) :
  main os (power_on cfg0) = Some (tt, m) -> steady m.
Proof.
  rewrite main_from_started.
  assert (One : average_count_ok 1) by (exists 0; split; [lia | reflexivity]).
  apply (occur_all_preserves steady
           (fun value m1 =>
              loose m1
              /\ match value with
                 | Some format => g_nextOutputFormat m1 = format
                 | None =>
                     exists f : OutputFmt, g_nextOutputFormat m1 = fmt_code f
                 end)).
  - exact after_steady.
  - intros value i m1 [Hl Hv]. split; [apply after_loose; exact Hl | ].
    destruct (after_pending i m1) as [-> _]. exact Hv.
  - intros rx m1 H. exact H.
  - exact stored_steady.
  - intros value m1 [Hl Hv]. apply wrapped_steady; assumption.
  - split; [exists UnsignedRightAligned; reflexivity | ].
    split; [ | split; exact One ].
    change (0 <= UNSIGNED_RIGHT_ALIGNED <= FORMAT_NUM).
    unfold UNSIGNED_RIGHT_ALIGNED, FORMAT_NUM. lia.
Qed.

(** ** Runs without an interrupt between the increment and the reset *)

Lemma stored_settled (c : Z) (m : machine) :
  settled m -> (c =? chr "s") = false ->
  settled (stored c m) /\ incremented c m = None.
Proof.
  intros (Haf & Hnf & Hac & Hnc) Hs.
  unfold settled, incremented, stored. rewrite Hs.
  cbn [pending g_nextOutputFormat g_nextAverageCount g_outputFormat
       g_averageCount].
  assert (Hc : average_count_ok (count_after c (g_nextAverageCount m)))
    by (apply count_after_ok; exact Hnc).
  destruct ((c =? chr "a") || (c =? chr "d"));
    (split; [ | reflexivity ]); repeat split; assumption.
Qed.

(** On settled globals, an occurrence without a group-done interrupt between
    the increment and the reset returns exactly when none of its interrupts
    is a group-done one with a reference code of zero; the globals are then
    settled again. *)
Lemma occur_unbroken (o : occurrence) (m : machine) :
  settled m -> unbroken o = true ->
  (reference_present o = true
   /\ exists m' : machine, occur o m = Some (tt, m') /\ settled m')
  \/ (reference_present o = false /\ occur o m = None).
Proof.
  intros Hs Hu.
  destruct o as [rx | status resVBG resAN0 | rx early late].
  - left. split; [reflexivity | ].
    cbn [occur]. rewrite main_loop_body_runs. eexists. split; [reflexivity | ].
    destruct Hs as (Haf & [f Hnf] & Hac & Hnc).
    unfold settled.
    cbn [pending logged g_outputFormat g_nextOutputFormat g_averageCount
         g_nextAverageCount].
    split; [exact Haf | ]. split; [ | split; [exact Hac | ] ].
    + rewrite Hnf. apply format_after_named.
    + apply count_after_ok. exact Hnc.
  - change (occur (Irq status resVBG resAN0) m)
      with (handle (Interrupt status resVBG resAN0) m).
    change (reference_present (Irq status resVBG resAN0))
      with (with_reference (Interrupt status resVBG resAN0)).
    pose proof Hs as ([f Hf] & _).
    rewrite (handle_named _ f m Hf).
    destruct (with_reference (Interrupt status resVBG resAN0)).
    + left. split; [reflexivity | ]. eexists. split; [reflexivity | ].
      apply after_settled. exact Hs.
    + right. split; reflexivity.
  - rewrite occur_preempted. cbn [reference_present unbroken] in *.
    assert (H1 : settled (logged [Cy_SCB_UART_Get rx] m)) by exact Hs.
    rewrite (handle_all_settled early _ H1).
    destruct (forallb with_reference early); cbn [andb];
      [ | right; split; reflexivity ].
    pose proof (after_all_preserves settled after_settled early _ H1) as H2.
    set (m2 := after_all early (logged [Cy_SCB_UART_Get rx] m)) in *.
    destruct (uint8 rx =? chr "s") eqn:Es; cbn [negb orb] in Hu.
    + destruct (handle_all_quiet late (stored (uint8 rx) m2) Hu)
        as (E & Hw & G1 & G2 & G3 & G4).
      rewrite E, Hw. left. split; [reflexivity | ].
      eexists. split; [reflexivity | ].
      apply Z.eqb_eq in Es. rewrite Es in *.
      destruct H2 as (Haf & [f Hnf] & Hac & Hnc).
      set (m4 := after_all late (stored (chr "s") m2)) in *.
      change (incremented (chr "s") m2)
        with (Some (int32 (g_nextOutputFormat m2 + 1))).
      change (g_nextOutputFormat (stored (chr "s") m2))
        with (int32 (g_nextOutputFormat m2 + 1)) in G3.
      change (g_nextAverageCount (stored (chr "s") m2))
        with (g_nextAverageCount m2) in G4.
      change (g_outputFormat (stored (chr "s") m2))
        with (g_outputFormat m2) in G1.
      change (g_averageCount (stored (chr "s") m2))
        with (g_averageCount m2) in G2.
      unfold settled, wrapped.
      destruct (int32 (g_nextOutputFormat m2 + 1) >? LEFT_ALIGNED) eqn:Ew;
        cbn [pending g_outputFormat g_nextOutputFormat g_averageCount
             g_nextAverageCount];
        rewrite ?G1, ?G2, ?G3, ?G4.
      * split; [exact Haf | ].
        split; [exists UnsignedRightAligned; reflexivity | ].
        split; assumption.
      * split; [exact Haf | ]. split; [ | split; assumption ].
        rewrite Hnf in *. exists (fmt_next f).
        destruct f; try reflexivity. vm_compute in Ew. discriminate Ew.
    + destruct (stored_settled (uint8 rx) m2 H2 Es) as [H3 Hn].
      rewrite (handle_all_settled late _ H3), Hn.
      destruct (forallb with_reference late);
        [ | right; split; reflexivity ].
      left. split; [reflexivity | ]. eexists. split; [reflexivity | ].
      cbn [wrapped]. apply after_all_preserves; [exact after_settled | ].
      exact H3.
Qed.

Lemma occur_all_unbroken (os : list occurrence) (m : machine) :
  settled m -> forallb unbroken os = true ->
  (forallb reference_present os = true
   /\ exists m' : machine, occur_all os m = Some (tt, m') /\ settled m')
  \/ (forallb reference_present os = false /\ occur_all os m = None).
Proof.
  revert m. induction os as [ | o os IH]; intros m Hs Hu.
  - left. split; [reflexivity | ]. exists m. split; [reflexivity | exact Hs].
  - cbn [forallb] in Hu. apply andb_true_iff in Hu. destruct Hu as [Ho Hos].
    cbn [forallb occur_all]. unfold bind.
    destruct (occur_unbroken o m Hs Ho) as [(-> & m1 & -> & H1) | (-> & ->)];
      cbn [andb]; [ | right; split; reflexivity ].
    exact (IH m1 H1 Hos).
Qed.

Lemma started_settled (cfg0 : cy_stc_sar2_channel_config_t) :
  settled (started cfg0).
Proof.
  assert (One : average_count_ok 1) by (exists 0; split; [lia | reflexivity]).
  split; [exists UnsignedRightAligned; reflexivity | ].
  split; [exists UnsignedRightAligned; reflexivity | ].
  split; exact One.
Qed.

(** From reset, a run without a group-done interrupt between an increment
    and its reset returns as long as no group-done interrupt comes with a
    reference code of zero, and leaves the globals settled. *)
Lemma main_runs (cfg0 : cy_stc_sar2_channel_config_t)
  (os : list occurrence) :
  forallb unbroken os = true ->
  forallb reference_present os = true ->
  exists m : machine, main os (power_on cfg0) = Some (tt, m) /\ settled m.
Proof.
  intros Hu Hp. rewrite main_from_started.
  destruct (occur_all_unbroken os (started cfg0) (started_settled cfg0) Hu)
    as [(_ & R) | (Hf & _)]; [exact R | ].
  rewrite Hp in Hf. discriminate Hf.
Qed.

(** ** Traces *)

Lemma calls_of_stamped (m : machine) (cs : list driver_call) :
  calls_of (map (stamp m) cs) = cs.
Proof.
  unfold calls_of. induction cs as [ | c cs IH]; [reflexivity | ].
  cbn [map stamp call_of]. rewrite IH. reflexivity.
Qed.

Lemma calls_of_logged (cs : list driver_call) (m : machine) :
  calls_of (trace (logged cs m)) = calls_of (trace m) ++ cs.
Proof.
  cbn [logged trace]. unfold calls_of. rewrite map_app.
  fold (calls_of (map (stamp m) cs)). rewrite calls_of_stamped. reflexivity.
Qed.

Lemma count_calls_of (p : driver_call -> bool) (t : list event) :
  count_calls p t = List.length (filter p (calls_of t)).
Proof.
  unfold count_calls, calls_of.
  induction t as [ | e t IH]; [reflexivity | ].
  cbn [map filter]. destruct (p (call_of e)); cbn [List.length]; rewrite IH;
    reflexivity.
Qed.

(** The calls of an interrupt are those of [new_calls]. *)
Lemma calls_of_after (i : interrupt) (m : machine) :
  calls_of (trace (after i m)) = calls_of (trace m) ++ new_calls i m.
Proof.
  destruct i as [status resVBG resAN0]. cbn [after new_calls].
  destruct (status =? CY_SAR2_INT_GRP_DONE); [ | apply calls_of_logged ].
  unfold after_group_done.
  destruct (negb (g_outputFormat m =? g_nextOutputFormat m)
            || negb (g_averageCount m =? g_nextAverageCount m)).
  - unfold reconfigured. rewrite calls_of_logged.
    cbn [adopt trace]. rewrite calls_of_logged.
    cbn [programmed trace]. rewrite calls_of_logged.
    unfold sampled. rewrite calls_of_logged.
    rewrite <- !app_assoc. reflexivity.
  - rewrite calls_of_logged. unfold sampled. rewrite calls_of_logged.
    rewrite <- !app_assoc. reflexivity.
Qed.

Lemma count_calls_after (p : driver_call -> bool) (i : interrupt)
  (m : machine) :
  count_calls p (trace (after i m)) =
  (count_calls p (trace m) + List.length (filter p (new_calls i m)))%nat.
Proof.
  rewrite !count_calls_of, calls_of_after, filter_app, length_app.
  reflexivity.
Qed.

Lemma count_calls_fetch (p : driver_call -> bool) (rx : Z) (m : machine) :
  p (Cy_SCB_UART_Get rx) = false ->
  count_calls p (trace (logged [Cy_SCB_UART_Get rx] m))
  = count_calls p (trace m).
Proof.
  intros H. rewrite !count_calls_of, calls_of_logged, filter_app, length_app.
  cbn [filter]. rewrite H. cbn [List.length]. lia.
Qed.

(** ** Counting calls *)

Lemma list_sum_cons (n : nat) (l : list nat) :
  list_sum (n :: l) = (n + list_sum l)%nat.
Proof. reflexivity. Qed.

Lemma after_all_count (p : driver_call -> bool) (w : interrupt -> nat) :
  (forall i m, List.length (filter p (new_calls i m)) = w i) ->
  forall (irqs : list interrupt) (m : machine),
    count_calls p (trace (after_all irqs m))
    = (count_calls p (trace m) + list_sum (map w irqs))%nat.
Proof.
  intros Step irqs. induction irqs as [ | i irqs IH]; intros m.
  - cbn [after_all map list_sum fold_right]. lia.
  - cbn [after_all map]. rewrite IH, count_calls_after, Step, list_sum_cons.
    lia.
Qed.

(** A kind of call the loop does not make and the handler makes [w i] times
    at the interrupt [i] is made as often as the interrupts of the run make
    it, wherever they come. *)
Lemma occur_count (p : driver_call -> bool) (w : interrupt -> nat) :
  (forall i m, List.length (filter p (new_calls i m)) = w i) ->
  (forall rx, p (Cy_SCB_UART_Get rx) = false) ->
  forall (o : occurrence) (m m' : machine),
    occur o m = Some (tt, m') ->
    count_calls p (trace m')
    = (count_calls p (trace m) + list_sum (map w (interrupts_of o)))%nat.
Proof.
  intros Step Fetch o m m'.
  assert (P : forall rx early late,
            occur (Preempted rx early late) m = Some (tt, m') ->
            count_calls p (trace m')
            = (count_calls p (trace m)
               + list_sum (map w (early ++ late)))%nat).
  { intros rx early late. rewrite occur_preempted.
    destruct (handle_all early (logged [Cy_SCB_UART_Get rx] m))
      as [[[] m2] | ] eqn:E2; [ | discriminate ].
    destruct (handle_all late (stored (uint8 rx) m2))
      as [[[] m4] | ] eqn:E4; [ | discriminate ].
    intros [= <-]. rewrite wrapped_trace.
    rewrite (handle_all_after _ _ _ E4), (after_all_count p w Step).
    change (trace (stored (uint8 rx) m2)) with (trace m2).
    rewrite (handle_all_after _ _ _ E2), (after_all_count p w Step).
    rewrite (count_calls_fetch p rx m (Fetch rx)).
    rewrite map_app, list_sum_app. lia. }
  destruct o as [rx | status resVBG resAN0 | rx early late].
  - cbn [occur]. rewrite main_loop_body_split. intros E.
    rewrite (P rx [] [] E). reflexivity.
  - intros E. rewrite (handle_after (Interrupt status resVBG resAN0) m m' E).
    rewrite count_calls_after, Step. cbn [interrupts_of map].
    rewrite list_sum_cons. cbn [list_sum fold_right]. lia.
  - apply P.
Qed.

Lemma occur_all_count (p : driver_call -> bool) (w : interrupt -> nat) :
  (forall i m, List.length (filter p (new_calls i m)) = w i) ->
  (forall rx, p (Cy_SCB_UART_Get rx) = false) ->
  forall (os : list occurrence) (m m' : machine),
    occur_all os m = Some (tt, m') ->
    count_calls p (trace m')
    = (count_calls p (trace m)
       + list_sum (map w (flat_map interrupts_of os)))%nat.
Proof.
  intros Step Fetch os. induction os as [ | o os IH]; intros m m'.
  - intros [= <-]. cbn [flat_map map list_sum fold_right]. lia.
  - cbn [occur_all]. unfold bind.
    destruct (occur o m) as [[[] m1] | ] eqn:E; [ | discriminate ].
    intros E'. rewrite (IH m1 m' E'), (occur_count p w Step Fetch o m m1 E).
    cbn [flat_map]. rewrite map_app, list_sum_app. lia.
Qed.

Lemma sum_per_group_done (k : nat) (irqs : list interrupt) :
  list_sum (map (fun i => if is_group_done i then k else 0%nat) irqs)
  = (k * List.length (filter is_group_done irqs))%nat.
Proof.
  induction irqs as [ | i irqs IH]; [cbn; lia | ].
  cbn [map filter]. rewrite list_sum_cons, IH.
  destruct (is_group_done i); cbn [List.length]; lia.
Qed.

Lemma sum_per_interrupt (irqs : list interrupt) :
  list_sum (map (fun _ => 1%nat) irqs) = List.length irqs.
Proof.
  induction irqs as [ | i irqs IH]; [reflexivity | ].
  cbn [map List.length]. rewrite list_sum_cons, IH. lia.
Qed.

(** A kind of call made [k] times by a group-done interrupt and by nothing
    else is made [k] times per group-done interrupt of a run. *)
Lemma count_per_group_done (p : driver_call -> bool) (k : nat) :
  (forall i m,
     List.length (filter p (new_calls i m))
     = if is_group_done i then k else 0%nat) ->
  (forall rx, p (Cy_SCB_UART_Get rx) = false) ->
  forall (os : list occurrence) (m m' : machine),
    occur_all os m = Some (tt, m') ->
    count_calls p (trace m')
    = (count_calls p (trace m) + k * group_dones os)%nat.
Proof.
  intros Step Fetch os m m' E.
  rewrite (occur_all_count p _ Step Fetch os m m' E), sum_per_group_done.
  reflexivity.
Qed.

(** A kind of call made once by every interrupt and by nothing else is made
    once per interrupt of a run. *)
Lemma count_per_interrupt (p : driver_call -> bool) :
  (forall i m, List.length (filter p (new_calls i m)) = 1%nat) ->
  (forall rx, p (Cy_SCB_UART_Get rx) = false) ->
  forall (os : list occurrence) (m m' : machine),
    occur_all os m = Some (tt, m') ->
    count_calls p (trace m') = (count_calls p (trace m) + interrupts os)%nat.
Proof.
  intros Step Fetch os m m' E.
  rewrite (occur_all_count p (fun _ => 1%nat) Step Fetch os m m' E),
    sum_per_interrupt.
  reflexivity.
Qed.

(** Two kinds of call the loop does not make and the handler always makes
    equally often stay equally frequent along a run. *)
Lemma count_same (p q : driver_call -> bool) :
  (forall i m,
     List.length (filter p (new_calls i m))
     = List.length (filter q (new_calls i m))) ->
  (forall rx, p (Cy_SCB_UART_Get rx) = false) ->
  (forall rx, q (Cy_SCB_UART_Get rx) = false) ->
  forall (os : list occurrence) (m m' : machine),
    count_calls p (trace m) = count_calls q (trace m) ->
    occur_all os m = Some (tt, m') ->
    count_calls p (trace m') = count_calls q (trace m').
Proof.
  intros Step Fp Fq.
  apply (occur_all_invariant
           (fun x => count_calls p (trace x) = count_calls q (trace x))).
  - intros i m H. rewrite !count_calls_after, Step, H. reflexivity.
  - intros rx m H. rewrite !count_calls_fetch by auto. exact H.
  - intros c m H. exact H.
  - intros value m H. rewrite wrapped_trace. exact H.
Qed.

Ltac per_interrupt :=
  let i := fresh "i" in
  let m := fresh "m" in
  intros i m; destruct i as [status resVBG resAN0];
  cbn [new_calls is_group_done];
  destruct (status =? CY_SAR2_INT_GRP_DONE); [ | reflexivity ];
  destruct (negb (g_outputFormat m =? g_nextOutputFormat m)
            || negb (g_averageCount m =? g_nextAverageCount m));
  reflexivity.

Lemma new_calls_triggers (i : interrupt) (m : machine) :
  List.length (filter (is_trigger_of CE_SAR2_VBG_IDX) (new_calls i m))
  = if is_group_done i then 1%nat else 0%nat.
Proof. revert i m. per_interrupt. Qed.

Lemma new_calls_no_signal_trigger (i : interrupt) (m : machine) :
  List.length (filter (is_trigger_of CE_SAR2_AN0_IDX) (new_calls i m))
  = if is_group_done i then 0%nat else 0%nat.
Proof. revert i m. per_interrupt. Qed.

Lemma new_calls_result_reads (i : interrupt) (m : machine) :
  List.length (filter is_result_read (new_calls i m))
  = if is_group_done i then 2%nat else 0%nat.
Proof. revert i m. per_interrupt. Qed.

Lemma new_calls_teardown_init (i : interrupt) (m : machine) :
  List.length (filter is_teardown (new_calls i m))
  = List.length (filter is_init (new_calls i m)).
Proof. revert i m. per_interrupt. Qed.

(** ** Initialisations *)

Lemma config_for_programmed_as (outputFormat count : Z) :
  config_for outputFormat count
  = new_config (programmed_as outputFormat) count.
Proof.
  unfold config_for, new_config, programmed_as.
  destruct (outputFormat =? UNSIGNED_RIGHT_ALIGNED); [reflexivity | ].
  destruct (outputFormat =? SIGNED_RIGHT_ALIGNED); reflexivity.
Qed.

Lemma init_ok_logged (cs : list driver_call) (m : machine) :
  Forall init_ok (trace m) ->
  (forall c, In (Cy_SAR2_Init c) cs ->
     CE_SAR2_AN0_config m = c
     /\ exists (f : OutputFmt) (k : Z),
          0 <= k <= 8 /\ c = new_config f (2 ^ k)) ->
  Forall init_ok (trace (logged cs m)).
Proof.
  intros Ht Hc. cbn [logged trace]. apply Forall_app. split; [exact Ht | ].
  apply Forall_forall. intros e He.
  apply in_map_iff in He. destruct He as (c & <- & Hin).
  unfold init_ok. cbn [stamp call_of config_at].
  destruct c; try exact I.
  apply Hc. exact Hin.
Qed.

Ltac no_init :=
  let c := fresh "c" in
  let H := fresh "H" in
  intros c H; cbn in H;
  repeat (destruct H as [H | H]; [discriminate H | ]);
  contradiction.

(** The handler initialises for the pending values as it finds them: the
    count is in range, and every value of the pending format, [FORMAT_NUM]
    too, is programmed as a named format. *)
Lemma after_init_ok (i : interrupt) (m : machine) :
  average_count_ok (g_nextAverageCount m) ->
  Forall init_ok (trace m) -> Forall init_ok (trace (after i m)).
Proof.
  intros (k & Hk & Hc) Ht.
  destruct i as [status resVBG resAN0]. cbn [after].
  destruct (status =? CY_SAR2_INT_GRP_DONE);
    [ | apply init_ok_logged; [exact Ht | no_init] ].
  assert (Hs : Forall init_ok
                 (trace (sampled (named (g_outputFormat m)) resVBG resAN0 m))).
  { unfold sampled. apply init_ok_logged; [exact Ht | no_init]. }
  unfold after_group_done.
  destruct (negb (g_outputFormat m =? g_nextOutputFormat m)
            || negb (g_averageCount m =? g_nextAverageCount m)).
  - unfold reconfigured.
    apply init_ok_logged; [ | no_init ].
    cbn [adopt trace].
    apply init_ok_logged.
    + cbn [programmed trace]. apply init_ok_logged; [exact Hs | no_init].
    + intros c Hin. cbn [bring_up In] in Hin.
      destruct Hin as [Hin | Hin].
      * injection Hin as <-. split; [reflexivity | ].
        exists (programmed_as (g_nextOutputFormat m)), k.
        split; [exact Hk | ].
        rewrite Hc. apply config_for_programmed_as.
      * repeat (destruct Hin as [Hin | Hin]; [discriminate Hin | ]).
        contradiction.
  - apply init_ok_logged; [exact Hs | no_init].
Qed.

Lemma started_init_ok (cfg0 : cy_stc_sar2_channel_config_t) :
  Forall init_ok (trace (started cfg0)).
Proof.
  unfold started, reconfigured.
  apply init_ok_logged; [ | no_init ].
  cbn [adopt trace]. apply init_ok_logged.
  - cbn [programmed trace]. apply init_ok_logged; [ | no_init ].
    apply init_ok_logged; [constructor | no_init].
  - intros c Hin. cbn [bring_up In] in Hin.
    destruct Hin as [Hin | Hin].
    + injection Hin as <-. split; [reflexivity | ].
      exists UnsignedRightAligned, 0. split; [lia | reflexivity].
    + repeat (destruct Hin as [Hin | Hin]; [discriminate Hin | ]).
      contradiction.
Qed.

(** * Further properties of the program *)

(** X1: from reset, whatever the generated channel configuration, start-up
    returns; after the banner it tears the converter down, initialises it
    for the defaults (count 1, right-aligned, unsigned), sets the
    reference-buffer mode and the interrupt up, and triggers the reference
    channel once: the unset active configuration (-1, -1) differs from every
    pending one.  The defaults are then the active configuration. *)
Theorem first_configuration_reprograms (cfg0 : cy_stc_sar2_channel_config_t) :
  exists m : machine,
    main_startup (power_on cfg0) = Some (tt, m)
    /\ calls_of (trace m) =
         map printf banner ++
         [ Cy_SAR2_DeInit;
           Cy_SAR2_Init (new_config UnsignedRightAligned 1);
           Cy_SAR2_SetReferenceBufferMode CY_SAR2_REF_BUF_MODE_ON;
           Cy_SAR2_Channel_SetInterruptMask CE_SAR2_AN0_IDX
             CY_SAR2_INT_GRP_DONE;
           Cy_SysInt_Init;
           NVIC_SetPriority 2;
           NVIC_EnableIRQ;
           Cy_SAR2_Channel_SoftwareTrigger CE_SAR2_VBG_IDX ]
    /\ CE_SAR2_AN0_config m = new_config UnsignedRightAligned 1
    /\ averageCount (CE_SAR2_AN0_config m) = 1
    /\ (g_outputFormat m, g_averageCount m) = (UNSIGNED_RIGHT_ALIGNED, 1)
    /\ (g_nextOutputFormat m, g_nextAverageCount m)
       = (UNSIGNED_RIGHT_ALIGNED, 1).
Proof.
  rewrite main_startup_runs. eexists. split; [reflexivity | ].
  split; [ | repeat split; reflexivity ].
  unfold reconfigured. rewrite calls_of_logged.
  cbn [adopt trace]. rewrite calls_of_logged.
  cbn [programmed trace]. rewrite !calls_of_logged.
  change (calls_of (trace (power_on cfg0))) with (@nil driver_call).
  rewrite app_nil_l, <- !app_assoc. reflexivity.
Qed.

(** X2: from reset, a run in which no group-done interrupt comes between
    the increment of line 178 and the reset of line 180 returns exactly when
    no group-done interrupt comes with a reference code of zero: in such a
    run the division of line 243 is the only step of the program that can
    be without a value. *)
Theorem run_returns_iff_reference_present
  (cfg0 : cy_stc_sar2_channel_config_t) (os : list occurrence) :
  forallb unbroken os = true ->
  ((exists m : machine, main os (power_on cfg0) = Some (tt, m))
   <-> forallb reference_present os = true)
  /\ (main os (power_on cfg0) = None
      <-> forallb reference_present os = false).
Proof.
  intros Hu. rewrite main_from_started.
  destruct (occur_all_unbroken os (started cfg0) (started_settled cfg0) Hu)
    as [(-> & m & -> & _) | (-> & ->)].
  - split; split; intros H; try discriminate H; try reflexivity.
    exists m. reflexivity.
  - split; split; intros H; try discriminate H; try reflexivity.
    destruct H as [m H]. discriminate H.
Qed.

(** X3: whenever a run from reset returns, wherever its interrupts come,
    the channel configuration in memory is the one lines 272-289 compute
    from the active configuration: the exponent is the one computed from
    the active count, the count field is the active count, and alignment and
    sign handling are those of the branch the active format takes, the last
    branch taking [FORMAT_NUM] as it takes [LEFT_ALIGNED].  The active count
    is a power of two in range and the active format is an enumerator; it
    is a named format when no group-done interrupt came between an
    increment and its reset. *)
Theorem hardware_follows_active_configuration
  (cfg0 : cy_stc_sar2_channel_config_t) (os : list occurrence) (m : machine) :
  main os (power_on cfg0) = Some (tt, m) ->
  0 <= g_outputFormat m <= FORMAT_NUM
  /\ average_count_ok (g_averageCount m)
  /\ rightShift (CE_SAR2_AN0_config m) = log_quotient (g_averageCount m)
  /\ averageCount (CE_SAR2_AN0_config m) = g_averageCount m
  /\ (resultAlignment (CE_SAR2_AN0_config m),
      signExtention (CE_SAR2_AN0_config m))
     = format_table (programmed_as (g_outputFormat m))
  /\ (forallb unbroken os = true ->
      exists f : OutputFmt,
        g_outputFormat m = fmt_code f
        /\ programmed_as (g_outputFormat m) = f).
Proof.
  intros E.
  destruct (main_steady cfg0 os m E) as (_ & Haf & Hac & _).
  pose proof (main_in_step cfg0 os m E) as Hi. unfold in_step in Hi.
  rewrite config_for_programmed_as in Hi.
  split; [exact Haf | ]. split; [exact Hac | ].
  rewrite Hi. cbn [new_config rightShift averageCount resultAlignment
                   signExtention].
  split; [reflexivity | ]. split.
  { apply uint16_small. apply average_count_bounds in Hac.
    change (2 ^ 16) with 65536. lia. }
  split; [destruct (programmed_as (g_outputFormat m)); reflexivity | ].
  intros Hu. rewrite main_from_started in E.
  destruct (occur_all_unbroken os (started cfg0) (started_settled cfg0) Hu)
    as [(_ & m' & E' & Hs) | (_ & N)].
  - rewrite E in E'. injection E' as <-.
    destruct Hs as ([f Hf] & _). exists f. split; [exact Hf | ].
    rewrite Hf. destruct f; reflexivity.
  - rewrite E in N. discriminate N.
Qed.

(** X4: in a run from reset that returns, the reference channel is
    triggered once at start-up and once more per group-done interrupt, and
    by nothing else; the signal channel is never triggered by software; and
    results are read twice per group-done interrupt and never otherwise. *)
Theorem one_trigger_per_group_done
  (cfg0 : cy_stc_sar2_channel_config_t) (os : list occurrence) (m : machine) :
  main os (power_on cfg0) = Some (tt, m) ->
  count_calls (is_trigger_of CE_SAR2_VBG_IDX) (trace m)
    = (1 + group_dones os)%nat
  /\ count_calls (is_trigger_of CE_SAR2_AN0_IDX) (trace m) = 0%nat
  /\ count_calls is_result_read (trace m) = (2 * group_dones os)%nat.
Proof.
  rewrite main_from_started. intros E.
  rewrite (count_per_group_done _ 1 new_calls_triggers
             (fun _ => eq_refl) os (started cfg0) m E).
  rewrite (count_per_group_done _ 0 new_calls_no_signal_trigger
             (fun _ => eq_refl) os (started cfg0) m E).
  rewrite (count_per_group_done _ 2 new_calls_result_reads
             (fun _ => eq_refl) os (started cfg0) m E).
  unfold started. repeat split; cbn; lia.
Qed.

(** X5: in a run from reset that returns, every initialisation of the
    converter reads a channel configuration that is the one of a named
    format and of a power of two between 1 and 256, and there are as many
    teardowns as initialisations. *)
Theorem initialisations_are_well_formed
  (cfg0 : cy_stc_sar2_channel_config_t) (os : list occurrence) (m : machine) :
  main os (power_on cfg0) = Some (tt, m) ->
  Forall init_ok (trace m)
  /\ count_calls is_teardown (trace m) = count_calls is_init (trace m).
Proof.
  rewrite main_from_started. intros E. split.
  - assert (H : average_count_ok (g_nextAverageCount m)
                /\ Forall init_ok (trace m)); [ | exact (proj2 H) ].
    revert E.
    apply (occur_all_invariant
             (fun x => average_count_ok (g_nextAverageCount x)
                       /\ Forall init_ok (trace x))).
    + intros i m1 [Hc Ht]. split; [ | apply after_init_ok; assumption ].
      destruct (after_pending i m1) as [_ ->]. exact Hc.
    + intros rx m1 [Hc Ht]. split; [exact Hc | ].
      apply init_ok_logged; [exact Ht | no_init].
    + intros c m1 [Hc Ht]. split; [ | exact Ht ].
      apply count_after_ok. exact Hc.
    + intros value m1 [Hc Ht]. rewrite wrapped_trace.
      destruct (wrapped_config value m1) as (_ & _ & _ & ->).
      split; assumption.
    + split; [ | apply started_init_ok ].
      exists 0. split; [lia | reflexivity].
  - revert E.
    apply (count_same _ _ new_calls_teardown_init
             (fun _ => eq_refl) (fun _ => eq_refl) os (started cfg0) m).
    reflexivity.
Qed.

(** X6: a turn of the command loop always returns; the only call it makes
    is the read of the UART; it leaves the active configuration and the
    channel configuration alone; a byte whose low eight bits are none of
    [a], [d], [s] changes nothing pending, [a] and [d] leave the pending
    format and [s] leaves the pending count. *)
Theorem command_loop_touches_no_hardware (rx : Z) (m : machine) :
  exists m' : machine,
    main_loop_body rx m = Some (tt, m')
    /\ trace m' = trace m ++ [ stamp m (Cy_SCB_UART_Get rx) ]
    /\ CE_SAR2_AN0_config m' = CE_SAR2_AN0_config m
    /\ g_outputFormat m' = g_outputFormat m
    /\ g_averageCount m' = g_averageCount m
    /\ (uint8 rx <> chr "s" -> g_nextOutputFormat m' = g_nextOutputFormat m)
    /\ (uint8 rx <> chr "a" -> uint8 rx <> chr "d" ->
        g_nextAverageCount m' = g_nextAverageCount m).
Proof.
  rewrite main_loop_body_runs. eexists. split; [reflexivity | ].
  repeat (split; [reflexivity | ]).
  cbn [pending g_nextOutputFormat g_nextAverageCount].
  split.
  - intros Hs. apply Z.eqb_neq in Hs. unfold format_after. rewrite Hs.
    destruct ((uint8 rx =? chr "a") || (uint8 rx =? chr "d")); reflexivity.
  - intros Ha Hd. apply Z.eqb_neq in Ha, Hd. unfold count_after.
    rewrite Ha, Hd. reflexivity.
Qed.

(** ** Commands in sequence *)

Lemma count_after_d_pow (k : Z) :
  0 <= k <= 8 -> count_after (chr "d") (2 ^ k) = 2 ^ Z.min (k + 1) 8.
Proof.
  intros Hk.
  assert (k = 0 \/ k = 1 \/ k = 2 \/ k = 3 \/ k = 4 \/ k = 5 \/ k = 6
          \/ k = 7 \/ k = 8) as C by lia.
  repeat (destruct C as [-> | C]; [reflexivity | ]). subst k. reflexivity.
Qed.

Lemma count_after_a_pow (k : Z) :
  0 <= k <= 8 -> count_after (chr "a") (2 ^ k) = 2 ^ Z.max (k - 1) 0.
Proof.
  intros Hk.
  assert (k = 0 \/ k = 1 \/ k = 2 \/ k = 3 \/ k = 4 \/ k = 5 \/ k = 6
          \/ k = 7 \/ k = 8) as C by lia.
  repeat (destruct C as [-> | C]; [reflexivity | ]). subst k. reflexivity.
Qed.

Lemma format_after_a_d (c format : Z) :
  c = chr "a" \/ c = chr "d" -> format_after c format = format.
Proof. intros [-> | ->]; reflexivity. Qed.

Lemma polls_d_run (n : nat) (k : Z) (m : machine) :
  0 <= k <= 8 -> g_nextAverageCount m = 2 ^ k ->
  exists m' : machine,
    occur_all (repeat (Poll (chr "d")) n) m = Some (tt, m')
    /\ g_nextAverageCount m' = 2 ^ Z.min (k + Z.of_nat n) 8
    /\ g_nextOutputFormat m' = g_nextOutputFormat m.
Proof.
  revert k m. induction n as [ | n IH]; intros k m Hk Hc.
  - exists m. split; [reflexivity | ]. split; [ | reflexivity ].
    rewrite Hc. f_equal. lia.
  - cbn [repeat occur_all occur]. unfold bind.
    rewrite main_loop_body_runs.
    change (uint8 (chr "d")) with (chr "d").
    rewrite Hc, count_after_d_pow by exact Hk.
    rewrite format_after_a_d by (right; reflexivity).
    match goal with
    | |- exists _, occur_all _ ?m1 = _ /\ _ =>
        destruct (IH (Z.min (k + 1) 8) m1) as (m' & E & Hc' & Hf');
          [lia | reflexivity | ]
    end.
    exists m'. split; [exact E | ]. split.
    + rewrite Hc'. f_equal. lia.
    + rewrite Hf'. reflexivity.
Qed.

Lemma polls_a_run (n : nat) (k : Z) (m : machine) :
  0 <= k <= 8 -> g_nextAverageCount m = 2 ^ k ->
  exists m' : machine,
    occur_all (repeat (Poll (chr "a")) n) m = Some (tt, m')
    /\ g_nextAverageCount m' = 2 ^ Z.max (k - Z.of_nat n) 0
    /\ g_nextOutputFormat m' = g_nextOutputFormat m.
Proof.
  revert k m. induction n as [ | n IH]; intros k m Hk Hc.
  - exists m. split; [reflexivity | ]. split; [ | reflexivity ].
    rewrite Hc. f_equal. lia.
  - cbn [repeat occur_all occur]. unfold bind.
    rewrite main_loop_body_runs.
    change (uint8 (chr "a")) with (chr "a").
    rewrite Hc, count_after_a_pow by exact Hk.
    rewrite format_after_a_d by (left; reflexivity).
    match goal with
    | |- exists _, occur_all _ ?m1 = _ /\ _ =>
        destruct (IH (Z.max (k - 1) 0) m1) as (m' & E & Hc' & Hf');
          [lia | reflexivity | ]
    end.
    exists m'. split; [exact E | ]. split.
    + rewrite Hc'. f_equal. lia.
    + rewrite Hf'. reflexivity.
Qed.

(** X7: on a pending count in range, [d] followed by [a] gives the count
    back unless it was 256 (then 128 is left), and [a] followed by [d] gives
    it back unless it was 1 (then 2 is left): at a bound the first byte does
    nothing and the second is not undone. *)
Theorem double_and_halve_undo_each_other (m : machine) :
  average_count_ok (g_nextAverageCount m) ->
  (exists m' : machine,
     occur_all [Poll (chr "d"); Poll (chr "a")] m = Some (tt, m')
     /\ g_nextAverageCount m'
        = if g_nextAverageCount m =? 256 then 128 else g_nextAverageCount m)
  /\ (exists m' : machine,
        occur_all [Poll (chr "a"); Poll (chr "d")] m = Some (tt, m')
        /\ g_nextAverageCount m'
           = if g_nextAverageCount m =? 1 then 2 else g_nextAverageCount m).
Proof.
  intros H. apply average_count_cases in H.
  split; cbn [occur_all occur]; unfold bind, ret;
    rewrite !main_loop_body_runs; (eexists; split; [reflexivity | ]);
    cbn [pending logged g_nextAverageCount];
    repeat (destruct H as [-> | H]; [reflexivity | ]);
    rewrite H; reflexivity.
Qed.

(** X8: from a pending count [2 ^ k], [n] bytes [d] leave
    [2 ^ min (k + n) 8] and [n] bytes [a] leave [2 ^ max (k - n) 0]: the
    count saturates at 256 and at 1; neither byte changes the pending
    format. *)
Theorem repeated_commands_saturate (n : nat) (k : Z) (m : machine) :
  0 <= k <= 8 ->
  g_nextAverageCount m = 2 ^ k ->
  (exists m' : machine,
     occur_all (repeat (Poll (chr "d")) n) m = Some (tt, m')
     /\ g_nextAverageCount m' = 2 ^ Z.min (k + Z.of_nat n) 8
     /\ g_nextOutputFormat m' = g_nextOutputFormat m)
  /\ (exists m' : machine,
        occur_all (repeat (Poll (chr "a")) n) m = Some (tt, m')
        /\ g_nextAverageCount m' = 2 ^ Z.max (k - Z.of_nat n) 0
        /\ g_nextOutputFormat m' = g_nextOutputFormat m).
Proof.
  intros Hk Hc. split.
  - exact (polls_d_run n k m Hk Hc).
  - exact (polls_a_run n k m Hk Hc).
Qed.

(** ** The transform and the voltage *)

Lemma resultAN0_signed_mod (raw : Z) :
  resultAN0_of SIGNED_RIGHT_ALIGNED raw = (raw + 0x800) mod 0x1000.
Proof.
  rewrite resultAN0_signed, land_0xFFF.
  rewrite <- bit11_of_masked.
  assert (B := Z.mod_pos_bound raw (2 ^ 12) ltac:(lia)).
  rewrite bit11_upper_half by exact B.
  rewrite <- (Zplus_mod_idemp_l raw 0x800 0x1000).
  change (2 ^ 12) with 4096 in *. change 0x1000 with 4096.
  change 0x800 with 2048.
  destruct (Z.leb_spec 2048 (raw mod 4096)) as [Hge | Hlt].
  - apply Z.mod_unique_pos with (q := 1); lia.
  - symmetry. apply Z.mod_small. lia.
Qed.

(** X9: under the signed format the transformed code is the raw code moved
    by half the 12-bit scale, modulo the scale, whatever the upper four bits
    of the raw code; it lies within [0, 0xFFF]; and the transform applied to
    its own result gives back the twelve low bits of the raw code. *)
Theorem signed_transform_is_half_scale_shift (raw : Z) :
  resultAN0_of SIGNED_RIGHT_ALIGNED raw = (raw + 0x800) mod 0x1000
  /\ 0 <= resultAN0_of SIGNED_RIGHT_ALIGNED raw <= 0xFFF
  /\ resultAN0_of SIGNED_RIGHT_ALIGNED
       (resultAN0_of SIGNED_RIGHT_ALIGNED raw) = raw mod 0x1000
  /\ resultAN0_of SIGNED_RIGHT_ALIGNED (raw + 0x1000)
     = resultAN0_of SIGNED_RIGHT_ALIGNED raw.
Proof.
  rewrite !resultAN0_signed_mod.
  change 0x1000 with 4096. change 0x800 with 2048. change 0xFFF with 4095.
  assert (B := Z.mod_pos_bound (raw + 2048) 4096 ltac:(lia)).
  split; [reflexivity | ]. split; [lia | ]. split.
  - rewrite Zplus_mod_idemp_l.
    replace (raw + 2048 + 2048) with (raw + 1 * 4096) by lia.
    apply Z_mod_plus_full.
  - replace (raw + 4096 + 2048) with (raw + 2048 + 1 * 4096) by lia.
    apply Z_mod_plus_full.
Qed.

(** X10: under the left-aligned format a 12-bit code delivered in the upper
    twelve bits of the 16-bit result is recovered exactly, whatever the four
    low bits; for any 16-bit raw code the transformed code is the raw code
    divided by 16. *)
Theorem left_aligned_code_is_recovered (code low : Z) :
  0 <= code < 2 ^ 12 ->
  0 <= low < 2 ^ 4 ->
  resultAN0_of LEFT_ALIGNED (Z.shiftl code 4 + low) = code
  /\ 0 <= Z.shiftl code 4 + low < 2 ^ 16
  /\ (forall raw : Z, 0 <= raw < 2 ^ 16 ->
        resultAN0_of LEFT_ALIGNED raw = raw / 16).
Proof.
  intros Hc Hl.
  assert (Raw : forall raw : Z, 0 <= raw < 2 ^ 16 ->
                  resultAN0_of LEFT_ALIGNED raw = raw / 16).
  { intros raw Hr. rewrite resultAN0_left, land_0xFFF.
    rewrite Z.shiftr_div_pow2 by lia.
    change (2 ^ 4) with 16. change (2 ^ 12) with 4096.
    change (2 ^ 16) with 65536 in Hr.
    apply Z.mod_small. split.
    - apply Z.div_pos; lia.
    - apply Z.div_lt_upper_bound; lia. }
  rewrite Z.shiftl_mul_pow2 by lia.
  change (2 ^ 4) with 16 in *. change (2 ^ 12) with 4096 in *.
  change (2 ^ 16) with 65536 in *.
  split; [ | split; [lia | exact Raw] ].
  rewrite Raw by lia.
  symmetry. apply Z.div_unique with (r := low); lia.
Qed.

(** X11: for 16-bit codes and a reference code that is not zero, the
    voltage is the largest [v] with [v * r <= t * 900]; it does not decrease
    when the transformed code grows; a code equal to the reference code
    reads exactly 900; and the voltage never exceeds 58981500, so that the
    32-bit arithmetic of line 243 is exact. *)
Theorem voltage_is_a_floor_and_monotone (t1 t2 r : Z) :
  0 <= t1 <= t2 ->
  t2 < 2 ^ 16 ->
  0 < r < 2 ^ 16 ->
  exists v1 v2 : Z,
    millivolts t1 r = Some v1
    /\ millivolts t2 r = Some v2
    /\ v1 <= v2
    /\ v2 * r <= t2 * 900 < (v2 + 1) * r
    /\ 0 <= v2 <= 58981500
    /\ millivolts r r = Some 900.
Proof.
  intros H1 H2 Hr. change (2 ^ 16) with 65536 in *.
  exists (t1 * 900 / r), (t2 * 900 / r).
  rewrite !millivolts_nonzero by (change (2 ^ 16) with 65536; lia).
  split; [reflexivity | ]. split; [reflexivity | ].
  split; [apply Z.div_le_mono; lia | ].
  split; [ | split ].
  - pose proof (Z.mul_div_le (t2 * 900) r ltac:(lia)).
    pose proof (Z.mul_succ_div_gt (t2 * 900) r ltac:(lia)).
    lia.
  - split; [apply Z.div_pos; lia | ].
    apply Z.div_le_upper_bound; [lia | nia].
  - f_equal. rewrite Z.mul_comm. apply Z.div_mul. lia.
Qed.

(** ** Calls in sequence *)

(** X12: whatever the arguments and the machine, a second call of the
    reconfiguration step with the same arguments finds them active: it
    triggers the reference channel and does nothing else. *)
Theorem repeated_configuration_only_triggers
  (outputFormat averageCount : Z) (m : machine) :
  exists m1 m2 : machine,
    configure_SAR_ADC outputFormat averageCount m = Some (tt, m1)
    /\ configure_SAR_ADC outputFormat averageCount m1 = Some (tt, m2)
    /\ trace m2 =
         trace m1 ++
         [ stamp m1 (Cy_SAR2_Channel_SoftwareTrigger CE_SAR2_VBG_IDX) ]
    /\ CE_SAR2_AN0_config m2 = CE_SAR2_AN0_config m1
    /\ (g_outputFormat m2, g_averageCount m2) = (outputFormat, averageCount)
    /\ (g_outputFormat m1, g_averageCount m1) = (outputFormat, averageCount).
Proof.
  destruct (configure_runs outputFormat averageCount m)
    as (m1 & earlier & E & _ & _ & Hf & Hc & _).
  exists m1. eexists. split; [exact E | ].
  rewrite <- Hf at 1. rewrite <- Hc at 1.
  split; [apply configure_same | ].
  split; [reflexivity | ]. split; [reflexivity | ].
  cbn [logged g_outputFormat g_averageCount]. rewrite Hf, Hc.
  split; reflexivity.
Qed.

(** X13: a group-done interrupt with a reference code that is not zero
    returns exactly when the active format is one of the three enumerators:
    any other value indexes [OUTPUT_FORMAT_STR] outside the array.  So it is
    with the unset value -1 the machine has before the first
    configuration. *)
Theorem label_lookup_needs_a_named_format
  (cfg0 : cy_stc_sar2_channel_config_t) (resVBG resAN0 : Z) (m : machine) :
  uint16 resVBG <> 0 ->
  ((exists m' : machine,
      handle_SAR_ADC_IRQ CY_SAR2_INT_GRP_DONE resVBG resAN0 m = Some (tt, m'))
   <-> 0 <= g_outputFormat m <= 2)
  /\ handle_SAR_ADC_IRQ CY_SAR2_INT_GRP_DONE resVBG resAN0 (power_on cfg0)
     = None.
Proof.
  intros Hv. split; [split | ].
  - intros [m' E].
    destruct (Z_lt_ge_dec (g_outputFormat m) 0) as [Hlo | Hlo].
    + rewrite handle_unnamed_format in E by (left; exact Hlo).
      discriminate E.
    + destruct (Z_lt_ge_dec 2 (g_outputFormat m)) as [Hhi | Hhi]; [ | lia ].
      rewrite handle_unnamed_format in E by (right; exact Hhi).
      discriminate E.
  - intros H.
    destruct (handle_group_done_summary (named (g_outputFormat m))
                resVBG resAN0 m) as (m' & E & _).
    + symmetry. apply code_named. exact H.
    + exact Hv.
    + exists m'. exact E.
  - apply handle_unnamed_format. left. cbn [power_on g_outputFormat]. lia.
Qed.

(** X14: a command is shown one conversion late.  Of two group-done
    interrupts in a row, the first renders the configuration that was active
    and makes the pending one active; the second renders with the label and
    the count of that pending configuration, transforms its raw code under
    it, and, finding nothing to change, only triggers. *)
Theorem pending_is_rendered_at_the_second_interrupt
  (f fn : OutputFmt) (v1 a1 v2 a2 : Z) (m : machine) :
  g_outputFormat m = fmt_code f ->
  g_nextOutputFormat m = fmt_code fn ->
  uint16 v1 <> 0 ->
  uint16 v2 <> 0 ->
  exists m1 m2 : machine,
    handle_SAR_ADC_IRQ CY_SAR2_INT_GRP_DONE v1 a1 m = Some (tt, m1)
    /\ handle_SAR_ADC_IRQ CY_SAR2_INT_GRP_DONE v2 a2 m1 = Some (tt, m2)
    /\ printed (trace m1) =
         printed (trace m) ++
         rendering (fmt_label f) (g_averageCount m) (fmt_u (uint16 a1))
           (spec_transform f (uint16 a1) * 900 / uint16 v1)
    /\ (g_outputFormat m1, g_averageCount m1)
       = (g_nextOutputFormat m, g_nextAverageCount m)
    /\ calls_of (trace m2) =
         calls_of (trace m1) ++
         reads CY_SAR2_INT_GRP_DONE v2 a2 ++
         map printf
           (rendering (fmt_label fn) (g_nextAverageCount m)
              (fmt_u (uint16 a2))
              (spec_transform fn (uint16 a2) * 900 / uint16 v2)) ++
         [ Cy_SAR2_Channel_SoftwareTrigger CE_SAR2_VBG_IDX ].
Proof.
  intros Hf Hn Hv1 Hv2.
  destruct (handle_group_done_summary f v1 a1 m Hf Hv1)
    as (m1 & E1 & Hp & _).
  pose proof E1 as E1'.
  rewrite (handle_group_done_explicit f v1 a1 m Hf Hv1) in E1'.
  injection E1' as Hm1.
  destruct (after_group_done_globals f v1 a1 m) as (Ga & Gc & Gnf & Gnc).
  rewrite Hm1 in Ga, Gc, Gnf, Gnc.
  assert (Hf1 : g_outputFormat m1 = fmt_code fn) by (rewrite Ga; exact Hn).
  exists m1, (after_group_done fn v2 a2 m1).
  split; [exact E1 | ].
  split; [exact (handle_group_done_explicit fn v2 a2 m1 Hf1 Hv2) | ].
  split; [exact Hp | ].
  split; [rewrite Ga, Gc; reflexivity | ].
  unfold after_group_done.
  rewrite Gnf, Gnc, Ga, Gc, !Z.eqb_refl. cbn [negb orb].
  rewrite calls_of_logged. unfold sampled. rewrite calls_of_logged.
  rewrite Gc, <- !app_assoc. reflexivity.
Qed.

(** ** Rendering and acknowledgement *)

Lemma new_calls_printfs (i : interrupt) (m : machine) :
  List.length (filter is_printf (new_calls i m))
  = if is_group_done i then 4%nat else 0%nat.
Proof. revert i m. per_interrupt. Qed.

Lemma new_calls_status_reads (i : interrupt) (m : machine) :
  List.length (filter is_status_read (new_calls i m)) = 1%nat.
Proof. revert i m. per_interrupt. Qed.

Lemma new_calls_acknowledges (i : interrupt) (m : machine) :
  List.length (filter is_acknowledge (new_calls i m)) = 1%nat.
Proof. revert i m. per_interrupt. Qed.

(** X15: in a run from reset that returns, every interrupt, group-done or
    not, has its status read once and acknowledged once, and nothing else
    reads or acknowledges; after the four texts of the banner, four texts
    are printed per group-done interrupt and none otherwise. *)
Theorem every_interrupt_is_acknowledged_once
  (cfg0 : cy_stc_sar2_channel_config_t) (os : list occurrence) (m : machine) :
  main os (power_on cfg0) = Some (tt, m) ->
  count_calls is_status_read (trace m) = interrupts os
  /\ count_calls is_acknowledge (trace m) = interrupts os
  /\ count_calls is_printf (trace m) = (4 + 4 * group_dones os)%nat
  /\ (group_dones os <= interrupts os)%nat.
Proof.
  rewrite main_from_started. intros E.
  rewrite (count_per_interrupt _ new_calls_status_reads
             (fun _ => eq_refl) os (started cfg0) m E).
  rewrite (count_per_interrupt _ new_calls_acknowledges
             (fun _ => eq_refl) os (started cfg0) m E).
  rewrite (count_per_group_done _ 4 new_calls_printfs
             (fun _ => eq_refl) os (started cfg0) m E).
  assert (Le : (group_dones os <= interrupts os)%nat).
  { unfold group_dones, interrupts. apply filter_length_le. }
  unfold started. cbn [reconfigured logged adopt programmed trace].
  rewrite !count_calls_of.
  unfold calls_of. rewrite !map_app, !map_map.
  cbn [power_on trace map app stamp call_of bring_up banner filter
       is_status_read is_acknowledge is_printf List.length].
  repeat split; lia.
Qed.

(** ** An interrupt between the increment and the reset *)

Lemma occur_all_last (os : list occurrence) (o : occurrence) (m : machine) :
  occur_all (os ++ [o]) m =
  match occur_all os m with
  | Some (_, m1) => occur o m1
  | None => None
  end.
Proof.
  revert m. induction os as [ | o' os IH]; intros m.
  - cbn [app occur_all]. unfold bind, ret.
    destruct (occur o m) as [[[] m1] | ]; reflexivity.
  - cbn [app occur_all]. unfold bind.
    destruct (occur o' m) as [[[] m1] | ]; [apply IH | reflexivity].
Qed.

(** Three bytes [s] from reset, the third turn with a group-done interrupt
    after its increment. *)
Lemma format_num_adopted
  (cfg0 : cy_stc_sar2_channel_config_t) (resVBG resAN0 : Z) :
  uint16 resVBG <> 0 ->
  exists m : machine,
    occur_all
      [ Poll (chr "s"); Poll (chr "s");
        Preempted (chr "s") []
          [Interrupt CY_SAR2_INT_GRP_DONE resVBG resAN0] ] (started cfg0)
    = Some (tt, m)
    /\ g_outputFormat m = FORMAT_NUM
    /\ g_nextOutputFormat m = UNSIGNED_RIGHT_ALIGNED
    /\ CE_SAR2_AN0_config m = new_config LeftAligned 1.
Proof.
  intros Hv. cbn [occur_all]. unfold bind.
  change (occur (Poll (chr "s"))) with (main_loop_body (chr "s")).
  rewrite !main_loop_body_runs.
  rewrite occur_preempted. cbn [handle_all handle ret]. unfold bind.
  rewrite (handle_group_done_explicit UnsignedRightAligned resVBG resAN0)
    by (reflexivity || exact Hv).
  eexists. split; [reflexivity | ].
  repeat split; reflexivity.
Qed.

(** X16: a group-done interrupt between the increment of line 178 and the
    reset of line 180 makes [FORMAT_NUM] the active format.  From reset, two
    bytes [s] leave the left-aligned format pending; a third [s] with a
    group-done interrupt (reference code not zero) after its increment
    returns, with the converter programmed by the last branch of lines
    275-289 (left-aligned, unsigned), [FORMAT_NUM] active and the pending
    format reset to unsigned right-aligned.  [OUTPUT_FORMAT_STR] has no
    entry for that active format: the next group-done interrupt, whatever
    its results, is without a value at line 241, in a run none of whose
    reference codes need be zero. *)
Theorem interrupt_between_increment_and_reset
  (cfg0 : cy_stc_sar2_channel_config_t) (resVBG resAN0 nextVBG nextAN0 : Z) :
  uint16 resVBG <> 0 ->
  (exists m : machine,
     main [ Poll (chr "s"); Poll (chr "s");
            Preempted (chr "s") []
              [Interrupt CY_SAR2_INT_GRP_DONE resVBG resAN0] ]
       (power_on cfg0) = Some (tt, m)
     /\ g_outputFormat m = FORMAT_NUM
     /\ g_nextOutputFormat m = UNSIGNED_RIGHT_ALIGNED
     /\ CE_SAR2_AN0_config m = new_config LeftAligned 1
     /\ (resultAlignment (CE_SAR2_AN0_config m),
         signExtention (CE_SAR2_AN0_config m))
        = (CY_SAR2_RESULT_ALIGNMENT_LEFT, CY_SAR2_SIGN_EXTENTION_UNSIGNED)
     /\ index OUTPUT_FORMAT_STR (g_outputFormat m) = None
     /\ handle_SAR_ADC_IRQ CY_SAR2_INT_GRP_DONE nextVBG nextAN0 m = None)
  /\ main [ Poll (chr "s"); Poll (chr "s");
            Preempted (chr "s") []
              [Interrupt CY_SAR2_INT_GRP_DONE resVBG resAN0];
            Irq CY_SAR2_INT_GRP_DONE nextVBG nextAN0 ]
       (power_on cfg0) = None
  /\ (uint16 nextVBG <> 0 ->
      forallb reference_present
        [ Poll (chr "s"); Poll (chr "s");
          Preempted (chr "s") []
            [Interrupt CY_SAR2_INT_GRP_DONE resVBG resAN0];
          Irq CY_SAR2_INT_GRP_DONE nextVBG nextAN0 ] = true).
Proof.
  intros Hv.
  destruct (format_num_adopted cfg0 resVBG resAN0 Hv)
    as (m & E & Hf & Hn & Hc).
  assert (N : handle_SAR_ADC_IRQ CY_SAR2_INT_GRP_DONE nextVBG nextAN0 m
              = None).
  { apply handle_unnamed_format. right. rewrite Hf. unfold FORMAT_NUM. lia. }
  split; [ | split ].
  - exists m. rewrite main_from_started.
    split; [exact E | ]. split; [exact Hf | ]. split; [exact Hn | ].
    split; [exact Hc | ]. split; [rewrite Hc; reflexivity | ].
    split; [rewrite Hf; reflexivity | exact N].
  - rewrite main_from_started.
    change [ Poll (chr "s"); Poll (chr "s");
             Preempted (chr "s") []
               [Interrupt CY_SAR2_INT_GRP_DONE resVBG resAN0];
             Irq CY_SAR2_INT_GRP_DONE nextVBG nextAN0 ]
      with ([ Poll (chr "s"); Poll (chr "s");
              Preempted (chr "s") []
                [Interrupt CY_SAR2_INT_GRP_DONE resVBG resAN0] ]
            ++ [Irq CY_SAR2_INT_GRP_DONE nextVBG nextAN0]).
    rewrite occur_all_last, E. exact N.
  - intros Hn'. apply Z.eqb_neq in Hv, Hn'.
    cbn [forallb reference_present with_reference].
    rewrite Z.eqb_refl, Hv, Hn'. reflexivity.
Qed.

(** ** The exponent and the last bit of the logarithm *)


End Program.

(** * The claims at concrete inputs *)

(** Signed right-aligned and active, raw code 0x8FF over a reference of
    1000: the code becomes 0x0FF = 255 and the voltage 255 * 900 / 1000. *)
Lemma transform_follows_active_format_witness :
  resultAN0_of (g_outputFormat (sample_machine 1 8)) (uint16 0x8FF)
    = spec_transform SignedRightAligned (uint16 0x8FF)
  /\ (exists m' : machine,
        handle_SAR_ADC_IRQ 1 Z.log2 1 1000 0x8FF (sample_machine 1 8)
          = Some (tt, m')
        /\ printed (trace m') =
             printed (trace (sample_machine 1 8)) ++
             rendering (fmt_label SignedRightAligned)
               (g_averageCount (sample_machine 1 8))
               (fmt_u (uint16 0x8FF))
               (spec_transform SignedRightAligned (uint16 0x8FF) * 900
                / uint16 1000))
  /\ resultAN0_of SIGNED_RIGHT_ALIGNED 0x800 = 0
  /\ resultAN0_of LEFT_ALIGNED 0x8000 = 0x800.
Proof.
  apply (transform_follows_active_format 1 Z.log2 SignedRightAligned
           1000 0x8FF (sample_machine 1 8)).
  - reflexivity.
  - vm_compute. discriminate.
Defined.

(** Active (unsigned, 4) and the same asked for: the trigger alone. *)
Lemma same_configuration_only_triggers_witness :
  g_outputFormat (sample_machine 0 4) = 0
  /\ g_averageCount (sample_machine 0 4) = 4
  /\ (exists m' : machine,
        configure_SAR_ADC 1 Z.log2 0 4 (sample_machine 0 4) = Some (tt, m')
        /\ trace m' =
             trace (sample_machine 0 4) ++
             [ stamp (sample_machine 0 4)
                 (Cy_SAR2_Channel_SoftwareTrigger CE_SAR2_VBG_IDX) ]
        /\ CE_SAR2_AN0_config m' = CE_SAR2_AN0_config (sample_machine 0 4)
        /\ g_outputFormat m' = g_outputFormat (sample_machine 0 4)
        /\ g_averageCount m' = g_averageCount (sample_machine 0 4)
        /\ g_nextOutputFormat m' = g_nextOutputFormat (sample_machine 0 4)
        /\ g_nextAverageCount m' = g_nextAverageCount (sample_machine 0 4))
  /\ (exists (m' : machine) (earlier : list event),
        configure_SAR_ADC 1 Z.log2 0 4 (sample_machine 0 4) = Some (tt, m')
        /\ trace m' =
             trace (sample_machine 0 4) ++ earlier ++
             [ stamp m' (Cy_SAR2_Channel_SoftwareTrigger CE_SAR2_VBG_IDX) ]
        /\ g_outputFormat m' = 0
        /\ g_averageCount m' = 4).
Proof.
  destruct (same_configuration_only_triggers 1 Z.log2 0 4 (sample_machine 0 4))
    as [Same Always].
  split; [reflexivity | ]. split; [reflexivity | ].
  split; [ | exact Always ].
  apply Same; reflexivity.
Defined.

(** Active (unsigned, 1), asked for (signed, 8): the whole sequence, with
    right alignment and signed extension. *)
Lemma reconfiguration_sequence_witness :
  (g_outputFormat (sample_machine 0 1) <> fmt_code SignedRightAligned
   \/ g_averageCount (sample_machine 0 1) <> 8)
  /\ exists m' : machine,
       configure_SAR_ADC 1 Z.log2 (fmt_code SignedRightAligned) 8
         (sample_machine 0 1) = Some (tt, m')
       /\ trace m' =
            trace (sample_machine 0 1) ++
            [ stamp (sample_machine 0 1) Cy_SAR2_DeInit ] ++
            map (stamp (programmed (new_config Z.log2 SignedRightAligned 8)
                          (sample_machine 0 1)))
              [ Cy_SAR2_Init (new_config Z.log2 SignedRightAligned 8);
                Cy_SAR2_SetReferenceBufferMode CY_SAR2_REF_BUF_MODE_ON;
                Cy_SAR2_Channel_SetInterruptMask CE_SAR2_AN0_IDX 1;
                Cy_SysInt_Init;
                NVIC_SetPriority 2;
                NVIC_EnableIRQ ] ++
            [ stamp (adopt (fmt_code SignedRightAligned) 8
                       (programmed (new_config Z.log2 SignedRightAligned 8)
                          (sample_machine 0 1)))
                (Cy_SAR2_Channel_SoftwareTrigger CE_SAR2_VBG_IDX) ]
       /\ CE_SAR2_AN0_config m' = new_config Z.log2 SignedRightAligned 8
       /\ rightShift (new_config Z.log2 SignedRightAligned 8) = Z.log2 8
       /\ (resultAlignment (new_config Z.log2 SignedRightAligned 8),
           signExtention (new_config Z.log2 SignedRightAligned 8))
          = format_table SignedRightAligned
       /\ g_outputFormat m' = fmt_code SignedRightAligned
       /\ g_averageCount m' = 8
       /\ g_nextOutputFormat m' = g_nextOutputFormat (sample_machine 0 1)
       /\ g_nextAverageCount m' = g_nextAverageCount (sample_machine 0 1).
Proof.
  assert (H : g_outputFormat (sample_machine 0 1)
              <> fmt_code SignedRightAligned
              \/ g_averageCount (sample_machine 0 1) <> 8).
  { left. vm_compute. discriminate. }
  split; [exact H | ].
  exact (reconfiguration_sequence 1 Z.log2 SignedRightAligned 8
           (sample_machine 0 1) H).
Defined.

(** C4 as stated fails where the reference code is 0: line 243 divides by
    zero, and the handler started on that sample has no result. *)
Lemma voltage_undefined_at_zero_reference :
  millivolts 0x400 0 = None
  /\ main 1 Z.log2 [Irq 1 0 0x400] (power_on sample_config) = None.
Proof. split; vm_compute; reflexivity. Qed.

(** A [log] correctly rounded at the nine counts, and the count 8 asked for
    with (unsigned, 1) active: the exponent is 3. *)
Lemma right_shift_exponent_is_log2_witness :
  rounds_correctly log_at_counts
  /\ 0 <= 3 <= 8
  /\ (g_outputFormat (sample_machine 0 1) <> fmt_code SignedRightAligned
      \/ g_averageCount (sample_machine 0 1) <> 2 ^ 3)
  /\ rightShift_of log_at_counts (2 ^ 3) = Some 3
  /\ Z.log2 (2 ^ 3) = 3
  /\ exists m' : machine,
       configure_SAR_ADC 1 (rightShift_or_zero log_at_counts)
         (fmt_code SignedRightAligned) (2 ^ 3) (sample_machine 0 1)
       = Some (tt, m')
       /\ rightShift (CE_SAR2_AN0_config m') = Z.log2 (2 ^ 3)
       /\ In (Cy_SAR2_Init (CE_SAR2_AN0_config m')) (map call_of (trace m')).
Proof.
  assert (Hlog : rounds_correctly log_at_counts).
  { intros k Hk.
    assert (k = 0 \/ k = 1 \/ k = 2 \/ k = 3 \/ k = 4 \/ k = 5 \/ k = 6
            \/ k = 7 \/ k = 8) as C by lia.
    repeat (destruct C as [-> | C]; [vm_compute; reflexivity | ]).
    subst k. vm_compute. reflexivity. }
  assert (Hq : forall averageCount exponent : Z,
             rightShift_of log_at_counts averageCount = Some exponent ->
             rightShift_or_zero log_at_counts averageCount = exponent).
  { intros averageCount exponent E. unfold rightShift_or_zero.
    rewrite E. reflexivity. }
  assert (Hk : 0 <= 3 <= 8) by lia.
  assert (H : g_outputFormat (sample_machine 0 1)
              <> fmt_code SignedRightAligned
              \/ g_averageCount (sample_machine 0 1) <> 2 ^ 3).
  { left. vm_compute. discriminate. }
  split; [exact Hlog | ]. split; [exact Hk | ]. split; [exact H | ].
  exact (right_shift_exponent_is_log2 1 (rightShift_or_zero log_at_counts)
           log_at_counts SignedRightAligned 3 (sample_machine 0 1)
           Hlog Hq Hk H).
Defined.

(** 0x400 over a reference of 1024. *)
Lemma voltage_formula_nonzero_reference_witness :
  0 <= 0x400 < 2 ^ 16
  /\ 0 < 1024 < 2 ^ 16
  /\ millivolts 0x400 1024 = Some (0x400 * BAND_GAP_MV / 1024)
  /\ BAND_GAP_MV = 900
  /\ millivolts 0x400 1024 = Some 900.
Proof.
  assert (Ht : 0 <= 0x400 < 2 ^ 16) by lia.
  assert (Hr : 0 < 1024 < 2 ^ 16) by lia.
  split; [exact Ht | split; [exact Hr | ] ].
  exact (voltage_formula_nonzero_reference 0x400 1024 Ht Hr).
Defined.

(** From the left-aligned format the byte [s] wraps to the first one. *)
Lemma format_cycles_in_three_witness :
  g_nextOutputFormat (pending 2 1 (sample_machine 0 1))
    = fmt_code LeftAligned
  /\ (exists m1 : machine,
        main_loop_body (chr "s") (pending 2 1 (sample_machine 0 1))
          = Some (tt, m1)
        /\ g_nextOutputFormat m1 = fmt_code (fmt_next LeftAligned)
        /\ g_nextAverageCount m1
           = g_nextAverageCount (pending 2 1 (sample_machine 0 1)))
  /\ fmt_next LeftAligned = UnsignedRightAligned
  /\ (exists m3 : machine,
        occur_all 1 Z.log2 [Poll (chr "s"); Poll (chr "s"); Poll (chr "s")]
          (pending 2 1 (sample_machine 0 1)) = Some (tt, m3)
        /\ g_nextOutputFormat m3 = fmt_code LeftAligned)
  /\ fmt_next (fmt_next (fmt_next LeftAligned)) = LeftAligned.
Proof.
  split; [reflexivity | ].
  apply (format_cycles_in_three 1 Z.log2 LeftAligned
           (pending 2 1 (sample_machine 0 1))).
  reflexivity.
Defined.

(** Status 0 where group-done is 1. *)
Lemma other_status_is_ignored_witness :
  0 <> 1
  /\ exists m' : machine,
       handle_SAR_ADC_IRQ 1 Z.log2 0 1000 0x8FF (sample_machine 0 1)
         = Some (tt, m')
       /\ trace m' =
            trace (sample_machine 0 1) ++
            map (stamp (sample_machine 0 1))
              [ Cy_SAR2_Channel_GetInterruptStatus CE_SAR2_AN0_IDX 0;
                Cy_SAR2_Channel_ClearInterrupt CE_SAR2_AN0_IDX 0 ]
       /\ printed (trace m') = printed (trace (sample_machine 0 1))
       /\ CE_SAR2_AN0_config m' = CE_SAR2_AN0_config (sample_machine 0 1)
       /\ g_outputFormat m' = g_outputFormat (sample_machine 0 1)
       /\ g_averageCount m' = g_averageCount (sample_machine 0 1)
       /\ g_nextOutputFormat m' = g_nextOutputFormat (sample_machine 0 1)
       /\ g_nextAverageCount m' = g_nextAverageCount (sample_machine 0 1).
Proof.
  assert (H : 0 <> 1) by discriminate.
  split; [exact H | ].
  exact (other_status_is_ignored 1 Z.log2 0 1000 0x8FF (sample_machine 0 1) H).
Defined.

(** Left-aligned and active, raw code 0x8000: a reference of 1000 gives a
    voltage of 2048 * 900 / 1000, a reference of 0 gives none. *)
Lemma reference_code_must_not_be_zero_witness :
  g_outputFormat (sample_machine 2 1) = fmt_code LeftAligned
  /\ (uint16 1000 <> 0
      /\ millivolts (resultAN0_of (fmt_code LeftAligned) (uint16 0x8000))
           (uint16 1000)
         = Some (resultAN0_of (fmt_code LeftAligned) (uint16 0x8000) * 900
                 / uint16 1000)
      /\ exists m' : machine,
           handle_SAR_ADC_IRQ 1 Z.log2 1 1000 0x8000 (sample_machine 2 1)
             = Some (tt, m')
           /\ printed (trace m') =
                printed (trace (sample_machine 2 1)) ++
                rendering (fmt_label LeftAligned)
                  (g_averageCount (sample_machine 2 1))
                  (fmt_u (uint16 0x8000))
                  (resultAN0_of (fmt_code LeftAligned) (uint16 0x8000) * 900
                   / uint16 1000))
  /\ (uint16 0 = 0
      /\ millivolts (resultAN0_of (fmt_code LeftAligned) (uint16 0x8000))
           (uint16 0) = None
      /\ handle_SAR_ADC_IRQ 1 Z.log2 1 0 0x8000 (sample_machine 2 1) = None).
Proof.
  assert (Hf : g_outputFormat (sample_machine 2 1) = fmt_code LeftAligned)
    by reflexivity.
  assert (Hv : uint16 1000 <> 0) by (vm_compute; discriminate).
  assert (Hz : uint16 0 = 0) by reflexivity.
  split; [exact Hf | ]. split.
  - split; [exact Hv | ].
    exact (proj1 (reference_code_must_not_be_zero 1 Z.log2 LeftAligned
                    1000 0x8000 (sample_machine 2 1) Hf) Hv).
  - split; [exact Hz | ].
    exact (proj2 (reference_code_must_not_be_zero 1 Z.log2 LeftAligned
                    0 0x8000 (sample_machine 2 1) Hf) Hz).
Defined.

(** * The further properties at concrete inputs *)

(** Group-done being status 1: three bytes and three interrupts, none with
    a reference code of zero, and the interrupt after the increment of the
    [s] turn not a group-done one. *)
Lemma run_returns_iff_reference_present_witness :
  forallb (unbroken 1)
    [ Poll (chr "d");
      Preempted (chr "s") [Interrupt 1 1024 255] [Interrupt 0 0 0];
      Irq 1 1000 0x8FF ] = true
  /\ ((exists m : machine,
         main 1 Z.log2
           [ Poll (chr "d");
             Preempted (chr "s") [Interrupt 1 1024 255] [Interrupt 0 0 0];
             Irq 1 1000 0x8FF ] (power_on sample_config) = Some (tt, m))
      <-> forallb (reference_present 1)
            [ Poll (chr "d");
              Preempted (chr "s") [Interrupt 1 1024 255] [Interrupt 0 0 0];
              Irq 1 1000 0x8FF ] = true)
  /\ (main 1 Z.log2
        [ Poll (chr "d");
          Preempted (chr "s") [Interrupt 1 1024 255] [Interrupt 0 0 0];
          Irq 1 1000 0x8FF ] (power_on sample_config) = None
      <-> forallb (reference_present 1)
            [ Poll (chr "d");
              Preempted (chr "s") [Interrupt 1 1024 255] [Interrupt 0 0 0];
              Irq 1 1000 0x8FF ] = false).
Proof.
  split; [reflexivity | ].
  exact (run_returns_iff_reference_present 1 Z.log2 sample_config
           [ Poll (chr "d");
             Preempted (chr "s") [Interrupt 1 1024 255] [Interrupt 0 0 0];
             Irq 1 1000 0x8FF ] eq_refl).
Defined.

(** The same run: a byte [d], a byte [s] with a group-done interrupt before
    its increment and a foreign interrupt after it, and a group-done
    interrupt between two turns. *)
Lemma hardware_follows_active_configuration_witness :
  exists m : machine,
    main 1 Z.log2
      [ Poll (chr "d");
        Preempted (chr "s") [Interrupt 1 1024 255] [Interrupt 0 0 0];
        Irq 1 1000 0x8FF ] (power_on sample_config) = Some (tt, m)
    /\ 0 <= g_outputFormat m <= FORMAT_NUM
    /\ average_count_ok (g_averageCount m)
    /\ rightShift (CE_SAR2_AN0_config m) = Z.log2 (g_averageCount m)
    /\ averageCount (CE_SAR2_AN0_config m) = g_averageCount m
    /\ (resultAlignment (CE_SAR2_AN0_config m),
        signExtention (CE_SAR2_AN0_config m))
       = format_table (programmed_as (g_outputFormat m))
    /\ exists f : OutputFmt,
         g_outputFormat m = fmt_code f
         /\ programmed_as (g_outputFormat m) = f.
Proof.
  destruct (main_runs 1 Z.log2 sample_config
              [ Poll (chr "d");
                Preempted (chr "s") [Interrupt 1 1024 255] [Interrupt 0 0 0];
                Irq 1 1000 0x8FF ] eq_refl eq_refl) as (m & E & _).
  destruct (hardware_follows_active_configuration 1 Z.log2 sample_config
              _ m E) as (H1 & H2 & H3 & H4 & H5 & H6).
  exists m. split; [exact E | ].
  split; [exact H1 | ]. split; [exact H2 | ]. split; [exact H3 | ].
  split; [exact H4 | ]. split; [exact H5 | ].
  exact (H6 eq_refl).
Defined.

Lemma one_trigger_per_group_done_witness :
  exists m : machine,
    main 1 Z.log2
      [ Poll (chr "d"); Irq 1 1024 255; Poll (chr "s"); Irq 0 0 0;
        Irq 1 1000 0x8FF ] (power_on sample_config) = Some (tt, m)
    /\ count_calls (is_trigger_of CE_SAR2_VBG_IDX) (trace m) = 3%nat
    /\ count_calls (is_trigger_of CE_SAR2_AN0_IDX) (trace m) = 0%nat
    /\ count_calls is_result_read (trace m) = 4%nat.
Proof.
  destruct (main_runs 1 Z.log2 sample_config
              [ Poll (chr "d"); Irq 1 1024 255; Poll (chr "s"); Irq 0 0 0;
                Irq 1 1000 0x8FF ] eq_refl eq_refl) as (m & E & _).
  exists m. split; [exact E | ].
  exact (one_trigger_per_group_done 1 Z.log2 sample_config _ m E).
Defined.

Lemma initialisations_are_well_formed_witness :
  exists m : machine,
    main 1 Z.log2
      [ Poll (chr "d"); Irq 1 1024 255; Poll (chr "s"); Irq 0 0 0;
        Irq 1 1000 0x8FF ] (power_on sample_config) = Some (tt, m)
    /\ Forall (init_ok Z.log2) (trace m)
    /\ count_calls is_teardown (trace m) = count_calls is_init (trace m).
Proof.
  destruct (main_runs 1 Z.log2 sample_config
              [ Poll (chr "d"); Irq 1 1024 255; Poll (chr "s"); Irq 0 0 0;
                Irq 1 1000 0x8FF ] eq_refl eq_refl) as (m & E & _).
  exists m. split; [exact E | ].
  exact (initialisations_are_well_formed 1 Z.log2 sample_config _ m E).
Defined.

(** At the upper bound: [d] does nothing, then [a] leaves 128. *)
Lemma double_and_halve_undo_each_other_witness :
  average_count_ok (g_nextAverageCount (pending 0 256 (sample_machine 0 1)))
  /\ (exists m' : machine,
        occur_all 1 Z.log2 [Poll (chr "d"); Poll (chr "a")]
          (pending 0 256 (sample_machine 0 1)) = Some (tt, m')
        /\ g_nextAverageCount m'
           = if g_nextAverageCount (pending 0 256 (sample_machine 0 1))
                =? 256
             then 128
             else g_nextAverageCount (pending 0 256 (sample_machine 0 1)))
  /\ (exists m' : machine,
        occur_all 1 Z.log2 [Poll (chr "a"); Poll (chr "d")]
          (pending 0 256 (sample_machine 0 1)) = Some (tt, m')
        /\ g_nextAverageCount m'
           = if g_nextAverageCount (pending 0 256 (sample_machine 0 1)) =? 1
             then 2
             else g_nextAverageCount (pending 0 256 (sample_machine 0 1))).
Proof.
  assert (H : average_count_ok
                (g_nextAverageCount (pending 0 256 (sample_machine 0 1)))).
  { exists 8. split; [lia | reflexivity]. }
  split; [exact H | ].
  exact (double_and_halve_undo_each_other 1 Z.log2
           (pending 0 256 (sample_machine 0 1)) H).
Defined.

(** Ten bytes from the count 1: the count stops at 256, and stays at 1. *)
Lemma repeated_commands_saturate_witness :
  0 <= 0 <= 8
  /\ g_nextAverageCount (sample_machine 0 1) = 2 ^ 0
  /\ (exists m' : machine,
        occur_all 1 Z.log2 (repeat (Poll (chr "d")) 10) (sample_machine 0 1)
          = Some (tt, m')
        /\ g_nextAverageCount m' = 2 ^ Z.min (0 + Z.of_nat 10) 8
        /\ g_nextOutputFormat m' = g_nextOutputFormat (sample_machine 0 1))
  /\ (exists m' : machine,
        occur_all 1 Z.log2 (repeat (Poll (chr "a")) 10) (sample_machine 0 1)
          = Some (tt, m')
        /\ g_nextAverageCount m' = 2 ^ Z.max (0 - Z.of_nat 10) 0
        /\ g_nextOutputFormat m' = g_nextOutputFormat (sample_machine 0 1)).
Proof.
  assert (Hk : 0 <= 0 <= 8) by lia.
  assert (Hc : g_nextAverageCount (sample_machine 0 1) = 2 ^ 0)
    by reflexivity.
  split; [exact Hk | ]. split; [exact Hc | ].
  exact (repeated_commands_saturate 1 Z.log2 10 0 (sample_machine 0 1) Hk Hc).
Defined.

(** The mid-scale code 0x800 with the low bits 0xF: raw code 0x800F. *)
Lemma left_aligned_code_is_recovered_witness :
  0 <= 0x800 < 2 ^ 12
  /\ 0 <= 0xF < 2 ^ 4
  /\ resultAN0_of LEFT_ALIGNED (Z.shiftl 0x800 4 + 0xF) = 0x800
  /\ 0 <= Z.shiftl 0x800 4 + 0xF < 2 ^ 16
  /\ (forall raw : Z, 0 <= raw < 2 ^ 16 ->
        resultAN0_of LEFT_ALIGNED raw = raw / 16).
Proof.
  assert (Hc : 0 <= 0x800 < 2 ^ 12) by lia.
  assert (Hl : 0 <= 0xF < 2 ^ 4) by lia.
  split; [exact Hc | ]. split; [exact Hl | ].
  exact (left_aligned_code_is_recovered 0x800 0xF Hc Hl).
Defined.

(** Codes 100 and 2048 over a reference of 1024. *)
Lemma voltage_is_a_floor_and_monotone_witness :
  0 <= 100 <= 2048
  /\ 2048 < 2 ^ 16
  /\ 0 < 1024 < 2 ^ 16
  /\ exists v1 v2 : Z,
       millivolts 100 1024 = Some v1
       /\ millivolts 2048 1024 = Some v2
       /\ v1 <= v2
       /\ v2 * 1024 <= 2048 * 900 < (v2 + 1) * 1024
       /\ 0 <= v2 <= 58981500
       /\ millivolts 1024 1024 = Some 900.
Proof.
  assert (H1 : 0 <= 100 <= 2048) by lia.
  assert (H2 : 2048 < 2 ^ 16) by lia.
  assert (Hr : 0 < 1024 < 2 ^ 16) by lia.
  split; [exact H1 | ]. split; [exact H2 | ]. split; [exact Hr | ].
  exact (voltage_is_a_floor_and_monotone 100 2048 1024 H1 H2 Hr).
Defined.

(** The signed format active, a reference of 1024. *)
Lemma label_lookup_needs_a_named_format_witness :
  uint16 1024 <> 0
  /\ ((exists m' : machine,
         handle_SAR_ADC_IRQ 1 Z.log2 1 1024 255 (sample_machine 1 8)
           = Some (tt, m'))
      <-> 0 <= g_outputFormat (sample_machine 1 8) <= 2)
  /\ handle_SAR_ADC_IRQ 1 Z.log2 1 1024 255 (power_on sample_config) = None.
Proof.
  assert (Hv : uint16 1024 <> 0) by (vm_compute; discriminate).
  split; [exact Hv | ].
  exact (label_lookup_needs_a_named_format 1 Z.log2 sample_config 1024 255
           (sample_machine 1 8) Hv).
Defined.

(** Unsigned and count 1 active, signed and count 8 pending. *)
Lemma pending_is_rendered_at_the_second_interrupt_witness :
  g_outputFormat (pending 1 8 (sample_machine 0 1))
    = fmt_code UnsignedRightAligned
  /\ g_nextOutputFormat (pending 1 8 (sample_machine 0 1))
     = fmt_code SignedRightAligned
  /\ uint16 1024 <> 0
  /\ uint16 1000 <> 0
  /\ exists m1 m2 : machine,
       handle_SAR_ADC_IRQ 1 Z.log2 1 1024 255 (pending 1 8 (sample_machine 0 1))
         = Some (tt, m1)
       /\ handle_SAR_ADC_IRQ 1 Z.log2 1 1000 0x8FF m1 = Some (tt, m2)
       /\ printed (trace m1) =
            printed (trace (pending 1 8 (sample_machine 0 1))) ++
            rendering (fmt_label UnsignedRightAligned)
              (g_averageCount (pending 1 8 (sample_machine 0 1)))
              (fmt_u (uint16 255))
              (spec_transform UnsignedRightAligned (uint16 255) * 900
               / uint16 1024)
       /\ (g_outputFormat m1, g_averageCount m1)
          = (g_nextOutputFormat (pending 1 8 (sample_machine 0 1)),
             g_nextAverageCount (pending 1 8 (sample_machine 0 1)))
       /\ calls_of (trace m2) =
            calls_of (trace m1) ++
            reads 1 1000 0x8FF ++
            map printf
              (rendering (fmt_label SignedRightAligned)
                 (g_nextAverageCount (pending 1 8 (sample_machine 0 1)))
                 (fmt_u (uint16 0x8FF))
                 (spec_transform SignedRightAligned (uint16 0x8FF) * 900
                  / uint16 1000)) ++
            [ Cy_SAR2_Channel_SoftwareTrigger CE_SAR2_VBG_IDX ].
Proof.
  assert (Hf : g_outputFormat (pending 1 8 (sample_machine 0 1))
               = fmt_code UnsignedRightAligned) by reflexivity.
  assert (Hn : g_nextOutputFormat (pending 1 8 (sample_machine 0 1))
               = fmt_code SignedRightAligned) by reflexivity.
  assert (Hv1 : uint16 1024 <> 0) by (vm_compute; discriminate).
  assert (Hv2 : uint16 1000 <> 0) by (vm_compute; discriminate).
  split; [exact Hf | ]. split; [exact Hn | ].
  split; [exact Hv1 | ]. split; [exact Hv2 | ].
  exact (pending_is_rendered_at_the_second_interrupt 1 Z.log2
           UnsignedRightAligned SignedRightAligned 1024 255 1000 0x8FF
           (pending 1 8 (sample_machine 0 1)) Hf Hn Hv1 Hv2).
Defined.

Lemma every_interrupt_is_acknowledged_once_witness :
  exists m : machine,
    main 1 Z.log2
      [ Poll (chr "d"); Irq 1 1024 255; Poll (chr "s"); Irq 0 0 0;
        Irq 1 1000 0x8FF ] (power_on sample_config) = Some (tt, m)
    /\ count_calls is_status_read (trace m) = 3%nat
    /\ count_calls is_acknowledge (trace m) = 3%nat
    /\ count_calls is_printf (trace m) = 12%nat
    /\ (2 <= 3)%nat.
Proof.
  destruct (main_runs 1 Z.log2 sample_config
              [ Poll (chr "d"); Irq 1 1024 255; Poll (chr "s"); Irq 0 0 0;
                Irq 1 1000 0x8FF ] eq_refl eq_refl) as (m & E & _).
  exists m. split; [exact E | ].
  exact (every_interrupt_is_acknowledged_once 1 Z.log2 sample_config _ m E).
Defined.

(** Group-done being status 1, with references of 1024 and 1000. *)
Lemma interrupt_between_increment_and_reset_witness :
  uint16 1024 <> 0
  /\ (exists m : machine,
        main 1 Z.log2
          [ Poll (chr "s"); Poll (chr "s");
            Preempted (chr "s") [] [Interrupt 1 1024 255] ]
          (power_on sample_config) = Some (tt, m)
        /\ g_outputFormat m = FORMAT_NUM
        /\ g_nextOutputFormat m = UNSIGNED_RIGHT_ALIGNED
        /\ CE_SAR2_AN0_config m = new_config Z.log2 LeftAligned 1
        /\ (resultAlignment (CE_SAR2_AN0_config m),
            signExtention (CE_SAR2_AN0_config m))
           = (CY_SAR2_RESULT_ALIGNMENT_LEFT, CY_SAR2_SIGN_EXTENTION_UNSIGNED)
        /\ index OUTPUT_FORMAT_STR (g_outputFormat m) = None
        /\ handle_SAR_ADC_IRQ 1 Z.log2 1 1000 0x8FF m = None)
  /\ main 1 Z.log2
       [ Poll (chr "s"); Poll (chr "s");
         Preempted (chr "s") [] [Interrupt 1 1024 255];
         Irq 1 1000 0x8FF ] (power_on sample_config) = None
  /\ forallb (reference_present 1)
       [ Poll (chr "s"); Poll (chr "s");
         Preempted (chr "s") [] [Interrupt 1 1024 255];
         Irq 1 1000 0x8FF ] = true.
Proof.
  assert (Hv : uint16 1024 <> 0) by (vm_compute; discriminate).
  assert (Hn : uint16 1000 <> 0) by (vm_compute; discriminate).
  destruct (interrupt_between_increment_and_reset 1 Z.log2 sample_config
              1024 255 1000 0x8FF Hv) as (Reached & Broken & Present).
  split; [exact Hv | ]. split; [exact Reached | ].
  split; [exact Broken | exact (Present Hn)].
Defined.

